(** * MT5 trade-algorithm monitor: pattern detectors and signature resolver

    A shallow embedding of [mt5_monitor.py] (class [MT5TradeMonitor]) and
    [advanced_analytics.py] (class [AdvancedAnalytics]).

    Modelling conventions.
    - A pandas DataFrame of deals (orders) is the list of its rows, in row
      order; [df.empty] is the empty list.
    - A Python/NumPy float is an exact rational ([Q]); IEEE rounding is not
      modelled.  [float('inf')] and NaN are separate constructors where the
      source can produce them.  Sums, products, quotients and means are
      therefore exact, where the source rounds each of them: a comparison
      whose operands lie within rounding distance of each other can come out
      differently in the source.  A property that rounding can break carries
      a hypothesis that keeps the inputs clear of the boundary, or is stated
      in a form that rounding preserves.
    - A standard deviation is never materialised (it is irrational in
      general).  Where the source compares [std < b] the model decides
      [0 < b /\ variance < b * b], which is the same comparison over the
      reals because [std = sqrt variance >= 0]; where the source stores a
      standard deviation, the model stores [VSqrt variance].
    - A timestamp is the number of seconds since the epoch ([Z]), as produced
      by [pd.to_datetime(..., unit='s')].
    - An f-string of the evidence list is kept as its literal text together
      with the values substituted into it; rendering to decimal text is not
      modelled.
    - [sort_values('time')] is modelled as a stable insertion sort
      ([sort_by]); pandas' default sort does not fix the order of rows of
      equal time, so a property that depends on that order is stated for
      every ascending arrangement of the rows ([time_ordered]).
    - [value_counts()] is modelled as counting in order of first appearance
      with the largest count first (ties keep first-appearance order). *)

From Stdlib Require Import ZArith QArith Qminmax Qabs Qround List String Bool Lia Lqa
  Sorted Permutation.
Import ListNotations.

Local Open Scope string_scope.
Local Open Scope Z_scope.
Local Open Scope Q_scope.

(** ** Numbers *)

Definition Qltb (x y : Q) : bool := negb (Qle_bool y x).
Definition Qleb (x y : Q) : bool := Qle_bool x y.

Definition Qsum (l : list Q) : Q := fold_right Qplus 0 l.
Definition Qlen {A} (l : list A) : Q := inject_Z (Z.of_nat (List.length l)).
Definition Qnat (n : nat) : Q := inject_Z (Z.of_nat n).

(** [np.mean] / [Series.mean] of a non-empty sequence, as the exact
    quotient; the float mean is this value rounded (it can exceed the
    largest element by a rounding error). *)
Definition mean (l : list Q) : Q := Qsum l / Qlen l.

(** Sum of squared deviations from the mean. *)
Definition sq_dev (l : list Q) : Q :=
  let m := mean l in Qsum (map (fun x => (x - m) * (x - m)) l).

(** Variance behind [np.std] (population, [ddof = 0]). *)
Definition var_pop (l : list Q) : Q := sq_dev l / Qlen l.

(** Variance behind [Series.std] (sample, [ddof = 1]); pandas yields NaN for
    fewer than two observations, here [None]. *)
Definition var_sample (l : list Q) : option Q :=
  match l with
  | [] | [_] => None
  | _ => Some (sq_dev l / (Qlen l - 1))
  end.

(** The comparison [sqrt v < b]. *)
Definition sqrt_lt (v b : Q) : bool := Qltb 0 b && Qltb v (b * b).

(** The comparison [std < b] where [std] may be NaN (every comparison with
    NaN is false). *)
Definition std_lt (v : option Q) (b : Q) : bool :=
  match v with
  | None => false
  | Some v => sqrt_lt v b
  end.

(** ** Data model *)

Record Deal := mkDeal {
  time : Z;
  symbol : string;
  type : Z;
  price : Q;
  volume : Q;
  profit : Q;
  position_id : Z
}.

Record Order := mkOrder {
  o_symbol : string;
  o_type : Z;
  price_open : Q;
  sl : Q;
  tp : Q;
  time_setup : Z;
  time_done : Z
}.

(** Values stored in [metrics] dictionaries and substituted into evidence
    strings. *)
Inductive Value :=
| VNum (q : Q)
| VSqrt (q : Q)
| VNaN
| VInf
| VInt (z : Z)
| VStr (s : string).

Record Evidence := mkEvidence {
  ev_text : string;
  ev_args : list Value
}.

Record TradePattern := mkTradePattern {
  pattern_name : string;
  confidence : Q;
  description : string;
  evidence : list Evidence;
  metrics : list (string * Value)
}.

(** ** Series helpers *)

(** Distinct values in order of first appearance ([set(...)], [unique()]). *)
Fixpoint unique_by {A} (eqb : A -> A -> bool) (l : list A) : list A :=
  match l with
  | [] => []
  | x :: r => x :: filter (fun y => negb (eqb x y)) (unique_by eqb r)
  end.

Definition count_by {A} (eqb : A -> A -> bool) (x : A) (l : list A) : nat :=
  List.length (filter (eqb x) l).

(** Stable insertion sort by a [Z] key ([sort_values]): [sort_by] inserts
    the rows from the last to the first, and a row goes in front of the rows
    already placed that have the same key, so rows with equal keys keep
    their input order. *)
Fixpoint insert_by {A} (key : A -> Z) (x : A) (l : list A) : list A :=
  match l with
  | [] => [x]
  | y :: r => if (key x <=? key y)%Z then x :: y :: r else y :: insert_by key x r
  end.

Definition sort_by {A} (key : A -> Z) (l : list A) : list A :=
  fold_right (fun x acc => insert_by key x acc) [] l.

Fixpoint insertQ (x : Q) (l : list Q) : list Q :=
  match l with
  | [] => [x]
  | y :: r => if Qltb x y then x :: y :: r else y :: insertQ x r
  end.

Definition sortQ (l : list Q) : list Q := fold_right insertQ [] l.

(** [np.diff] / [Series.diff().dropna()]: consecutive differences. *)
Fixpoint diffs (l : list Q) : list Q :=
  match l with
  | x :: ((y :: _) as r) => (y - x) :: diffs r
  | _ => []
  end.

(** [value_counts()]: (value, count) pairs, largest count first. *)
Fixpoint insert_count {A} (p : A * nat) (l : list (A * nat)) : list (A * nat) :=
  match l with
  | [] => [p]
  | q :: r => if (snd q <=? snd p)%nat then p :: q :: r else q :: insert_count p r
  end.

Definition value_counts {A} (eqb : A -> A -> bool) (l : list A) : list (A * nat) :=
  fold_right insert_count []
    (map (fun x => (x, count_by eqb x l)) (unique_by eqb l)).

(** ** Position sizing ([detect_position_sizing_pattern]) *)

(** The loop [for i in range(1, len(volumes))]: [prev] is row [i-1], the head
    of [rest] is row [i], [v0] is [volumes[0]]; the state is
    [(is_martingale, martingale_count)].  The products [volumes[i-1] * 1.8]
    and [volumes[0] * 1.2] are exact here and rounded in the source; the two
    tests agree unless a volume lies within rounding distance of the product
    (see [steps_clear_of_boundary]). *)
Fixpoint martingale_loop (v0 : Q) (prev : Deal) (rest : list Deal)
    (st : bool * nat) : bool * nat :=
  match rest with
  | [] => st
  | d :: rest' =>
      martingale_loop v0 d rest'
        (if Qltb (profit prev) 0 && Qleb (volume prev * 1.8) (volume d)
         then (fst st, S (snd st))
         else if Qltb 0 (profit prev) && Qleb (volume d) (v0 * 1.2)
         then st
         else (false, snd st))
  end.

Definition martingale_count (deals_df : list Deal) : nat :=
  match deals_df with
  | [] => O
  | d0 :: rest => snd (martingale_loop (volume d0) d0 rest (true, O))
  end.

Definition detect_position_sizing_pattern (deals_df : list Deal)
  : option TradePattern :=
  match deals_df with
  | [] => None
  | d0 :: _ =>
      let volumes := map volume deals_df in
      let mk name conf ev ms :=
        Some (mkTradePattern name conf "Position sizing strategy analysis" ev ms) in
      if (List.length (unique_by Qeq_bool volumes) =? 1)%nat then
        mk "Fixed Lot Size" 0.95
           [mkEvidence "All trades use identical lot size: {}" [VNum (volume d0)]]
           [("lot_size", VNum (volume d0))]
      else if (3 <? List.length volumes)%nat then
        let c := martingale_count deals_df in
        if Qltb (Qlen volumes * 0.3) (Qnat c) then
          mk "Martingale/Anti-Martingale" 0.8
             [mkEvidence "Position size increases after losses in {} instances"
                         [VInt (Z.of_nat c)]]
             [("martingale_ratio", VNum (Qnat c / Qlen volumes))]
        else
          mk "Unknown" 0 [] []
      else
        let volume_mean := mean volumes in
        let v := var_pop volumes in
        let pos := Qltb 0 volume_mean in
        let cv := if pos then VSqrt (v / (volume_mean * volume_mean)) else VNum 0 in
        if (if pos then sqrt_lt v (0.2 * volume_mean) else true) then
          mk "Consistent Proportional Sizing" 0.7
             [mkEvidence "Low variation in lot sizes (CV: {:.2f})" [cv]]
             [("coefficient_variation", cv)]
        else
          mk "Dynamic/Variable Sizing" 0.6
             [mkEvidence "High variation in lot sizes (CV: {:.2f})" [cv]]
             [("coefficient_variation", cv)]
  end.

(** ** Calendar fields of a timestamp *)

Definition hour_of (t : Z) : Z := ((t mod 86400) / 3600)%Z.
Definition date_of (t : Z) : Z := (t / 86400)%Z.
(** Monday = 0; the epoch, 1970-01-01, was a Thursday. *)
Definition dayofweek_of (t : Z) : Z := ((t / 86400 + 3) mod 7)%Z.
Definition minute_floor (t : Z) : Z := (t / 60)%Z.

(** [df.sort_values('time')['time'].diff().dt.total_seconds() / 60] without
    its leading NaN: gaps between consecutive deals, in minutes. *)
Definition time_diffs_minutes (deals_df : list Deal) : list Q :=
  map (fun s => s / 60) (diffs (map (fun d => inject_Z (time d)) (sort_by time deals_df))).

(** [Series.median()] of a non-empty sequence. *)
Definition median (l : list Q) : Q :=
  let s := sortQ l in
  let n := List.length s in
  if Nat.even n
  then (nth (n / 2 - 1) s 0 + nth (n / 2) s 0) / 2
  else nth (n / 2) s 0.

Definition pct (count : nat) (total : nat) : Q := Qnat count / Qnat total * 100.

(** ** Time-based patterns ([detect_time_based_patterns]) *)

Definition dow_names : list string :=
  ["Monday"; "Tuesday"; "Wednesday"; "Thursday"; "Friday"; "Saturday"; "Sunday"].

Definition detect_time_based_patterns (deals_df : list Deal) : option TradePattern :=
  match deals_df with
  | [] => None
  | d0 :: _ =>
      let n := List.length deals_df in
      let hour_counts := value_counts Z.eqb (map (fun d => hour_of (time d)) deals_df) in
      let top := hd (hour_of (time d0), O) hour_counts in
      let top_hour := fst top in
      let top_hour_pct := pct (snd top) n in
      let at_hour := mkEvidence "{:.1f}% of trades occur at hour {}"
                                [VNum top_hour_pct; VInt top_hour] in
      let '(pattern_name, confidence, evidence) :=
        if Qltb 50 top_hour_pct then ("Time-Scheduled Trading", 0.85, [at_hour])
        else if Qltb 30 top_hour_pct then ("Preferred Time Window Trading", 0.7, [at_hour])
        else ("Continuous/24-Hour Trading", 0.6,
              [mkEvidence "Trades distributed across multiple hours" []]) in
      let metrics := [("top_trading_hour", VInt top_hour);
                      ("top_hour_concentration", VNum top_hour_pct)] in
      let time_diffs := time_diffs_minutes deals_df in
      let median_interval := median time_diffs in
      let regular :=
        match time_diffs with
        | [] => false
        | _ => std_lt (var_sample time_diffs) (median_interval * 0.3)
               && Qltb median_interval 60
        end in
      let evidence := if regular
        then app evidence [mkEvidence "Regular trading intervals (~{:.1f} minutes)"
                                      [VNum median_interval]]
        else evidence in
      let confidence := if regular then Qmax confidence 0.8 else confidence in
      let metrics := if regular
        then app metrics [("avg_interval_minutes", VNum median_interval)]
        else metrics in
      let dow_counts := value_counts Z.eqb (map (fun d => dayofweek_of (time d)) deals_df) in
      let topd := hd (dayofweek_of (time d0), O) dow_counts in
      let top_dow := nth (Z.to_nat (fst topd)) dow_names "" in
      let top_dow_pct := pct (snd topd) n in
      let evidence := if Qltb 40 top_dow_pct
        then app evidence [mkEvidence "Concentrated trading on {} ({:.1f}%)"
                                      [VStr top_dow; VNum top_dow_pct]]
        else evidence in
      Some (mkTradePattern pattern_name confidence
              "Time-based trading pattern analysis" evidence metrics)
  end.

(** ** Risk management ([detect_risk_management_pattern]) *)

Definition detect_risk_management_pattern (deals_df : list Deal)
    (orders_df : list Order) : option TradePattern :=
  match deals_df with
  | [] => None
  | _ =>
      let '(pattern_name, confidence, evidence, metrics) :=
        match orders_df with
        | [] => ("Unknown Risk Management", 0.5, [], [])
        | _ =>
            let orders_with_sl := filter (fun o => Qltb 0 (sl o)) orders_df in
            let orders_with_tp := filter (fun o => Qltb 0 (tp o)) orders_df in
            let sl_usage := pct (List.length orders_with_sl) (List.length orders_df) in
            let tp_usage := pct (List.length orders_with_tp) (List.length orders_df) in
            let ms := [("stop_loss_usage_pct", VNum sl_usage);
                       ("take_profit_usage_pct", VNum tp_usage)] in
            let ev_sl := mkEvidence "Stop Loss used in {:.1f}% of trades" [VNum sl_usage] in
            let ev_tp := mkEvidence "Take Profit used in {:.1f}% of trades" [VNum tp_usage] in
            if Qltb 80 sl_usage && Qltb 80 tp_usage then
              ("Strict Risk Management (SL + TP)", 0.9, [ev_sl; ev_tp], ms)
            else if Qltb 80 sl_usage then
              ("Conservative (SL Only)", 0.8, [ev_sl], ms)
            else if Qltb 80 tp_usage then
              ("Profit Target Based", 0.75, [ev_tp], ms)
            else
              ("Flexible/Manual Risk Management", 0.6,
               [mkEvidence "Variable use of stop loss and take profit" []], ms)
        end in
      let profits := map profit deals_df in
      let wins := filter (fun p => Qltb 0 p) profits in
      let losses := filter (fun p => Qltb p 0) profits in
      let '(evidence, metrics) :=
        match wins, losses with
        | _ :: _, _ :: _ =>
            let avg_win := mean wins in
            let avg_loss := Qabs (mean losses) in
            let risk_reward := if Qltb 0 avg_loss then avg_win / avg_loss else 0 in
            (if Qltb 2 risk_reward then
               app evidence [mkEvidence "High risk-reward ratio: {:.2f}" [VNum risk_reward]]
             else if Qltb risk_reward 0.5 then
               app evidence [mkEvidence "Low risk-reward ratio: {:.2f} (potential martingale)"
                                        [VNum risk_reward]]
             else evidence,
             app metrics [("average_win", VNum avg_win);
                          ("average_loss", VNum avg_loss);
                          ("risk_reward_ratio", VNum risk_reward)])
        | _, _ => (evidence, metrics)
        end in
      Some (mkTradePattern pattern_name confidence
              "Risk management strategy analysis" evidence metrics)
  end.

(** ** Trading frequency ([detect_trading_frequency_pattern]) *)

(** [deals_df.groupby('date').size()]: number of deals on each calendar
    date that has any. *)
Definition trades_per_day (deals_df : list Deal) : list Q :=
  let dates := map (fun d => date_of (time d)) deals_df in
  map (fun day => Qnat (count_by Z.eqb day dates)) (unique_by Z.eqb dates).

Definition detect_trading_frequency_pattern (deals_df : list Deal)
  : option TradePattern :=
  match deals_df with
  | [] => None
  | _ =>
      let per_day := trades_per_day deals_df in
      let avg_trades_per_day := mean per_day in
      let var_trades_per_day := var_sample per_day in
      let metrics :=
        [("avg_trades_per_day", VNum avg_trades_per_day);
         ("std_trades_per_day",
          match var_trades_per_day with Some v => VSqrt v | None => VNaN end)] in
      let average := mkEvidence "Average {:.1f} trades per day" [VNum avg_trades_per_day] in
      let '(pattern_name, confidence) :=
        if Qltb 50 avg_trades_per_day then ("High-Frequency Trading (HFT)", 0.85)
        else if Qltb 20 avg_trades_per_day then ("Scalping Strategy", 0.8)
        else if Qltb 5 avg_trades_per_day then ("Day Trading Strategy", 0.75)
        else if Qltb 1 avg_trades_per_day then ("Swing Trading Strategy", 0.7)
        else ("Position Trading Strategy", 0.7) in
      let consistent := std_lt var_trades_per_day (avg_trades_per_day * 0.3) in
      Some (mkTradePattern pattern_name
              (if consistent then confidence + 0.05 else confidence)
              "Trading frequency analysis"
              [average;
               if consistent
               then mkEvidence "Consistent daily trading frequency" []
               else mkEvidence "Variable daily trading frequency" []]
              metrics)
  end.

(** ** Symbol concentration ([detect_symbol_pattern]) *)

Definition detect_symbol_pattern (deals_df : list Deal) : option TradePattern :=
  match deals_df with
  | [] => None
  | d0 :: _ =>
      let symbol_counts := value_counts String.eqb (map symbol deals_df) in
      let total_symbols := List.length symbol_counts in
      let top := hd (symbol d0, O) symbol_counts in
      let top_symbol := fst top in
      let top_symbol_pct := pct (snd top) (List.length deals_df) in
      let metrics := [("total_symbols_traded", VInt (Z.of_nat total_symbols));
                      ("top_symbol", VStr top_symbol);
                      ("top_symbol_concentration", VNum top_symbol_pct)] in
      let trades := mkEvidence "Trades {} different instruments"
                               [VInt (Z.of_nat total_symbols)] in
      let '(pattern_name, confidence, evidence) :=
        if (total_symbols =? 1)%nat then
          ("Single Instrument Specialist", 0.95,
           [mkEvidence "Only trades {}" [VStr top_symbol]])
        else if Qltb 70 top_symbol_pct then
          ("Focused Instrument Strategy", 0.85,
           [mkEvidence "{:.1f}% concentration on {}" [VNum top_symbol_pct; VStr top_symbol]])
        else if (total_symbols <=? 5)%nat then
          ("Multi-Instrument Strategy", 0.75, [trades])
        else
          ("Diversified Portfolio Strategy", 0.7, [trades]) in
      Some (mkTradePattern pattern_name confidence
              "Instrument selection analysis" evidence metrics)
  end.

(** ** Trade statistics ([calculate_trade_statistics]) *)

Record Stats := mkStats {
  total_trades : nat;
  winning_trades : nat;
  losing_trades : nat;
  break_even_trades : nat;
  total_profit : Q;
  average_profit : Q;
  max_profit : Q;
  max_loss : Q;
  average_volume : Q;
  total_volume : Q;
  win_rate : Q;
  profit_factor : Value;
  most_active_hour : Z;
  most_active_day : Z;
  avg_time_between_trades_minutes : Value;
  median_time_between_trades_minutes : Value
}.

(** [Series.mode().values[0]]: the smallest of the most frequent values. *)
Definition mode0 (l : list Z) : Z :=
  let best := fold_right (fun x m => Nat.max (count_by Z.eqb x l) m) O l in
  let modes := filter (fun x => (count_by Z.eqb x l =? best)%nat) l in
  fold_right Z.min (hd 0%Z modes) modes.

Definition Qmaximum (l : list Q) : Q := fold_right Qmax (hd 0 l) l.
Definition Qminimum (l : list Q) : Q := fold_right Qmin (hd 0 l) l.

Definition is_trade (d : Deal) : bool := (type d =? 0)%Z || (type d =? 1)%Z.

Definition gross_profit (trade_deals : list Deal) : Q :=
  Qsum (filter (fun p => Qltb 0 p) (map profit trade_deals)).

Definition gross_loss (trade_deals : list Deal) : Q :=
  Qabs (Qsum (filter (fun p => Qltb p 0) (map profit trade_deals))).

Definition calculate_trade_statistics (deals_df : list Deal) : option Stats :=
  let trade_deals := filter is_trade deals_df in
  match trade_deals with
  | [] => None
  | _ =>
      let profits := map profit trade_deals in
      let volumes := map volume trade_deals in
      let total := List.length trade_deals in
      let winning := List.length (filter (fun p => Qltb 0 p) profits) in
      let time_diffs := time_diffs_minutes trade_deals in
      Some {|
        total_trades := total;
        winning_trades := winning;
        losing_trades := List.length (filter (fun p => Qltb p 0) profits);
        break_even_trades := List.length (filter (fun p => Qeq_bool p 0) profits);
        total_profit := Qsum profits;
        average_profit := mean profits;
        max_profit := Qmaximum profits;
        max_loss := Qminimum profits;
        average_volume := mean volumes;
        total_volume := Qsum volumes;
        win_rate := Qnat winning / Qnat total * 100;
        profit_factor :=
          if Qltb 0 (gross_loss trade_deals)
          then VNum (gross_profit trade_deals / gross_loss trade_deals)
          else if Qltb 0 (gross_profit trade_deals) then VInf else VNum 0;
        most_active_hour := mode0 (map (fun d => hour_of (time d)) trade_deals);
        most_active_day := mode0 (map (fun d => dayofweek_of (time d)) trade_deals);
        avg_time_between_trades_minutes :=
          match time_diffs with [] => VNaN | _ => VNum (mean time_diffs) end;
        median_time_between_trades_minutes :=
          match time_diffs with [] => VNaN | _ => VNum (median time_diffs) end
      |}
  end.

(** ** Signature resolver ([_determine_algorithm_type]) *)

(** [sub in s] for strings. *)
Fixpoint contains (sub s : string) : bool :=
  String.prefix sub s ||
  match s with
  | EmptyString => false
  | String _ r => contains sub r
  end.

Definition name_in (name : string) (pattern_names : list string) : bool :=
  existsb (String.eqb name) pattern_names.

(** [value > bound] and [value < bound] for a statistic that may be [inf]. *)
Definition value_gt (v : Value) (bound : Q) : bool :=
  match v with
  | VNum q => Qltb bound q
  | VInf => true
  | _ => false
  end.

Definition value_lt (v : Value) (bound : Q) : bool :=
  match v with
  | VNum q => Qltb q bound
  | _ => false
  end.

(** [stats.get('win_rate', 0)] and [stats.get('profit_factor', 0)]. *)
Definition get_win_rate (stats : option Stats) : Q :=
  match stats with Some s => win_rate s | None => 0 end.

Definition get_profit_factor (stats : option Stats) : Value :=
  match stats with Some s => profit_factor s | None => VNum 0 end.

(** ["Grid" in str(pattern_names)]: the text of the list shows every name
    between quotes, separated by [', '], so the test succeeds exactly when
    some name contains ["Grid"]. *)
Definition _determine_algorithm_type (patterns : list TradePattern)
    (stats : option Stats) : string :=
  let pattern_names := map pattern_name patterns in
  if name_in "High-Frequency Trading (HFT)" pattern_names then
    "High-Frequency Trading Bot"
  else if name_in "Scalping Strategy" pattern_names then
    if name_in "Time-Scheduled Trading" pattern_names
    then "Scheduled Scalping EA"
    else "Scalping Bot/EA"
  else if name_in "Martingale/Anti-Martingale" pattern_names then
    if existsb (contains "Grid") pattern_names
    then "Grid Martingale EA"
    else "Martingale-Based EA"
  else if name_in "Day Trading Strategy" pattern_names then
    if name_in "Strict Risk Management (SL + TP)" pattern_names
    then "Professional Day Trading EA"
    else "Day Trading Bot"
  else if name_in "Swing Trading Strategy" pattern_names then
    "Swing Trading Algorithm"
  else if name_in "Position Trading Strategy" pattern_names then
    "Long-Term Position Trading EA"
  else if Qltb (get_win_rate stats) 40 && value_gt (get_profit_factor stats) 1.5 then
    "High Risk-Reward Trend Following EA"
  else if Qltb 70 (get_win_rate stats) && value_lt (get_profit_factor stats) 2 then
    "High Win-Rate Mean Reversion EA"
  else
    "Custom/Hybrid Trading Algorithm".

(** ** Signature ([identify_algorithm_type]) *)

Record Characteristics := mkCharacteristics {
  statistics : option Stats;
  pattern_count : nat;
  analysis_period_days : Z
}.

Record AlgorithmSignature := mkAlgorithmSignature {
  likely_algorithm : string;
  sig_confidence : Q;
  patterns : list TradePattern;
  characteristics : Characteristics;
  timestamp : Z
}.

(** [[p for p in patterns if p is not None]]. *)
Fixpoint drop_none {A} (l : list (option A)) : list A :=
  match l with
  | [] => []
  | Some x :: r => x :: drop_none r
  | None :: r => drop_none r
  end.

Definition Zmaximum (l : list Z) : Z := fold_right Z.max (hd 0%Z l) l.
Definition Zminimum (l : list Z) : Z := fold_right Z.min (hd 0%Z l) l.

(** [now] is the reading of [datetime.now()], the only input besides the two
    tables. *)
Definition identify_algorithm_type (deals_df : list Deal) (orders_df : list Order)
    (now : Z) : AlgorithmSignature :=
  let patterns := drop_none
    [detect_position_sizing_pattern deals_df;
     detect_time_based_patterns deals_df;
     detect_risk_management_pattern deals_df orders_df;
     detect_trading_frequency_pattern deals_df;
     detect_symbol_pattern deals_df] in
  let stats := calculate_trade_statistics deals_df in
  let likely_algorithm := _determine_algorithm_type patterns stats in
  let avg_confidence :=
    match patterns with
    | [] => 0
    | _ => Qsum (map confidence patterns) / Qlen patterns
    end in
  let times := map time deals_df in
  {| likely_algorithm := likely_algorithm;
     sig_confidence := avg_confidence;
     patterns := patterns;
     characteristics :=
       {| statistics := stats;
          pattern_count := List.length patterns;
          analysis_period_days :=
            match deals_df with
            | [] => 0%Z
            | _ => ((Zmaximum times - Zminimum times) / 86400)%Z
            end |};
     timestamp := now |}.

(** ** Advanced analytics ([AdvancedAnalytics]) *)

(** [df[df['symbol'] == symbol]] *)
Definition deals_of (s : string) (deals_df : list Deal) : list Deal :=
  filter (fun d => String.eqb (symbol d) s) deals_df.

Definition orders_of (s : string) (orders_df : list Order) : list Order :=
  filter (fun o => String.eqb (o_symbol o) s) orders_df.

Definition symbols (deals_df : list Deal) : list string :=
  unique_by String.eqb (map symbol deals_df).

(** *** Grid trading ([detect_grid_trading]) *)

Record GridResult := mkGridResult {
  is_grid : bool;
  grid_confidence : Q;
  grid_evidence : option (list Evidence);
  grid_spacing : option Q
}.

Definition is_pending_limit (o : Order) : bool := (o_type o =? 2)%Z || (o_type o =? 3)%Z.

(** The sorted consecutive price differences of a symbol's pending limit
    orders. *)
Definition grid_price_diffs (symbol_orders : list Order) : list Q :=
  diffs (sortQ (map price_open (filter is_pending_limit symbol_orders))).

(** The two guards and the spacing test of one iteration. *)
Definition grid_hit (symbol_orders : list Order) : bool :=
  negb (List.length symbol_orders <? 5)%nat
  && (3 <=? List.length (filter is_pending_limit symbol_orders))%nat
  && (0 <? List.length (grid_price_diffs symbol_orders))%nat
  && sqrt_lt (var_pop (grid_price_diffs symbol_orders))
             (mean (grid_price_diffs symbol_orders) * 0.3).

(** Body of [for symbol in deals_df['symbol'].unique()]. *)
Definition grid_step (orders_df : list Order) (results : GridResult) (s : string)
  : GridResult :=
  let symbol_orders := orders_of s orders_df in
  if grid_hit symbol_orders then
    let mean_diff := mean (grid_price_diffs symbol_orders) in
    {| is_grid := true;
       grid_confidence := 0.8;
       grid_evidence :=
         Some (app (match grid_evidence results with Some e => e | None => [] end)
                   [mkEvidence "Regular price intervals detected for {} (avg: {:.5f})"
                               [VStr s; VNum mean_diff]]);
       grid_spacing := Some mean_diff |}
  else results.

Definition detect_grid_trading (deals_df : list Deal) (orders_df : list Order)
  : GridResult :=
  match deals_df, orders_df with
  | [], _ | _, [] => mkGridResult false 0 None None
  | _, _ =>
      fold_left (grid_step orders_df) (symbols deals_df)
                (mkGridResult false 0 (Some []) None)
  end.

(** *** News trading ([detect_news_trading]) *)

Record NewsResult := mkNewsResult {
  is_news_trading : bool;
  news_confidence : Q;
  clusters_detected : option nat;
  cluster_ratio : option Q;
  news_evidence : option (list Evidence)
}.

(** [deals_df['time'].diff()] in minutes with its leading NaN ([None]). *)
Definition time_diffs_nan (deals_df : list Deal) : list (option Q) :=
  match deals_df with
  | [] => []
  | _ => None :: map Some (time_diffs_minutes deals_df)
  end.

Definition lt_count (bound : Q) (l : list (option Q)) : nat :=
  List.length (filter (fun x => match x with Some q => Qltb q bound | None => false end) l).

(** The loop [while i < len(time_diffs) - 2]; the argument is
    [time_diffs.iloc[i:]]. *)
Fixpoint news_clusters (td : list (option Q)) : nat :=
  match td with
  | [] => O
  | x :: rest =>
      if (2 <? List.length td)%nat then
        ((match x with
          | Some q => if Qltb 60 q && (2 <=? lt_count 5 (firstn 3 rest))%nat
                      then 1 else 0
          | None => 0
          end) + news_clusters rest)%nat
      else O
  end.

Definition detect_news_trading (deals_df : list Deal) : NewsResult :=
  match deals_df with
  | [] => mkNewsResult false 0 None None None
  | _ =>
      let clusters := news_clusters (time_diffs_nan deals_df) in
      let ratio :=
        if (0 <? List.length deals_df)%nat
        then Qnat clusters / Qlen deals_df else 0 in
      let flag := Qltb 0.1 ratio in
      {| is_news_trading := flag;
         news_confidence := Qmin (ratio * 5) 0.9;
         clusters_detected := Some clusters;
         cluster_ratio := Some ratio;
         news_evidence :=
           if flag then
             Some [mkEvidence "Detected {} trading clusters" [VInt (Z.of_nat clusters)];
                   mkEvidence "Trading pattern suggests reaction to external events" []]
           else None |}
  end.

(** *** Correlation trading ([detect_correlation_trading]) *)

Record CorrelationResult := mkCorrelationResult {
  is_correlation_trading : bool;
  correlation_confidence : Q;
  simultaneous_ratio : option Q;
  simultaneous_count : option nat;
  correlation_evidence : option (list Evidence)
}.

Definition detect_correlation_trading (deals_df : list Deal) : CorrelationResult :=
  match deals_df with
  | [] => mkCorrelationResult false 0 None None None
  | _ =>
      let time_points := unique_by Z.eqb (map (fun d => minute_floor (time d)) deals_df) in
      let group t := filter (fun d => (minute_floor (time d) =? t)%Z) deals_df in
      let simultaneous_multi_symbol :=
        List.length (filter (fun t => (1 <? List.length (symbols (group t)))%nat)
                            time_points) in
      let total_time_points := List.length time_points in
      let ratio :=
        if (0 <? total_time_points)%nat
        then Qnat simultaneous_multi_symbol / Qnat total_time_points else 0 in
      let flag := Qltb 0.3 ratio in
      {| is_correlation_trading := flag;
         correlation_confidence := Qmin (ratio * 2) 0.85;
         simultaneous_ratio := Some ratio;
         simultaneous_count := Some simultaneous_multi_symbol;
         correlation_evidence :=
           if flag then
             Some [mkEvidence "Trades multiple symbols simultaneously in {} instances"
                              [VInt (Z.of_nat simultaneous_multi_symbol)];
                   mkEvidence "Suggests correlation-based or basket trading strategy" []]
           else None |}
  end.

(** *** Hedging ([detect_hedging_strategy]) *)

Record HedgingResult := mkHedgingResult {
  is_hedging : bool;
  hedging_confidence : Q;
  hedging_ratio : option Q;
  hedging_instances : option nat;
  hedging_evidence : option (list Evidence)
}.

(** The loop [for i in range(len(symbol_deals) - 1)]; the result is
    [(hedging_instances, total_opportunities)] gained on one symbol. *)
Fixpoint hedging_pairs (symbol_deals : list Deal) : nat * nat :=
  match symbol_deals with
  | deal1 :: ((deal2 :: _) as rest) =>
      let '(h, t) := hedging_pairs rest in
      let time_diff := inject_Z (time deal2 - time deal1) / 60 in
      ((if Qltb time_diff 10 && negb (type deal1 =? type deal2)%Z then S h else h), S t)
  | _ => (O, O)
  end.

Definition hedging_step (sorted : list Deal) (acc : nat * nat) (s : string) : nat * nat :=
  let symbol_deals := deals_of s sorted in
  if (List.length symbol_deals <? 2)%nat then acc
  else let '(h, t) := hedging_pairs symbol_deals in
       (fst acc + h, snd acc + t)%nat.

Definition detect_hedging_strategy (deals_df : list Deal) : HedgingResult :=
  match deals_df with
  | [] => mkHedgingResult false 0 None None None
  | _ =>
      let sorted := sort_by time deals_df in
      let '(instances, total_opportunities) :=
        fold_left (hedging_step sorted) (symbols sorted) (O, O) in
      let ratio :=
        if (0 <? total_opportunities)%nat
        then Qnat instances / Qnat total_opportunities else 0 in
      let flag := Qltb 0.3 ratio in
      {| is_hedging := flag;
         hedging_confidence := Qmin (ratio * 2) 0.85;
         hedging_ratio := Some ratio;
         hedging_instances := Some instances;
         hedging_evidence :=
           if flag then
             Some [mkEvidence "Detected {} potential hedging instances"
                              [VInt (Z.of_nat instances)];
                   mkEvidence "Algorithm appears to use opposite positions for risk management" []]
           else None |}
  end.

(** *** Scaling in/out ([detect_scaling_in_out]) *)

Record ScalingResult := mkScalingResult {
  is_scaling : bool;
  scaling_confidence : Q;
  scaling_instances : option nat;
  scaling_evidence : option (list Evidence)
}.

(** Loop state: [(consecutive_same_type, prev_type, scaling_instances)]. *)
Definition ScalingState : Type := nat * option Z * nat.

(** Body of [for deal_type in symbol_deals['type']]. *)
Definition scaling_body (st : ScalingState) (deal_type : Z) : ScalingState :=
  let '(consecutive_same_type, prev_type, instances) := st in
  if match prev_type with Some p => (deal_type =? p)%Z | None => false end then
    let c := S consecutive_same_type in
    (c, Some deal_type, if (2 <=? c)%nat then S instances else instances)
  else
    (1%nat, Some deal_type, instances).

(** Body of [for symbol in deals_df['symbol'].unique()]. *)
Definition scaling_step (sorted : list Deal) (instances : nat) (s : string) : nat :=
  let symbol_deals := deals_of s sorted in
  if (List.length symbol_deals <? 3)%nat then instances
  else snd (fold_left scaling_body (map type symbol_deals) (1%nat, None, instances)).

(** The counter after both loops, on the frame as the sort left it. *)
Definition scaling_instances_on (sorted : list Deal) : nat :=
  fold_left (scaling_step sorted) (symbols sorted) O.

(** [sort_values] stands for [deals_df.sort_values('time')].  The order in
    which pandas leaves rows of equal time is not fixed by the source (the
    default sort is not stable), and the type sequence of a symbol depends
    on it, so the detector is given for whatever arrangement the sort
    returns. *)
Definition detect_scaling_in_out_with (sort_values : list Deal -> list Deal)
    (deals_df : list Deal) : ScalingResult :=
  match deals_df with
  | [] => mkScalingResult false 0 None None
  | _ =>
      let instances := scaling_instances_on (sort_values deals_df) in
      let flag := (0 <? instances)%nat in
      {| is_scaling := flag;
         scaling_confidence := Qmin (Qnat instances * 0.2) 0.85;
         scaling_instances := Some instances;
         scaling_evidence :=
           if flag then
             Some [mkEvidence "Detected {} instances of position scaling"
                              [VInt (Z.of_nat instances)];
                   mkEvidence "Algorithm adds to winning/losing positions" []]
           else None |}
  end.

(** The detector with the stable sort, which keeps rows of equal time in
    input order. *)
Definition count_scaling_instances (deals_df : list Deal) : nat :=
  scaling_instances_on (sort_by time deals_df).

Definition detect_scaling_in_out (deals_df : list Deal) : ScalingResult :=
  detect_scaling_in_out_with (sort_by time) deals_df.

(** *** Entry precision ([analyze_entry_precision]) *)

Record PrecisionResult := mkPrecisionResult {
  most_common_decimal_places : nat;
  precision_consistency : Q;
  is_algorithmic_precision : bool;
  round_number_ratio : Q;
  precision_evidence : option (list Evidence)
}.

(** Nearest integer, ties to even: the rounding of [f"{price:.10f}"]. *)
Definition round_half_even (x : Q) : Z :=
  let f := Qfloor x in
  let r := x - inject_Z f in
  if Qltb r 0.5 then f
  else if Qltb 0.5 r then (f + 1)%Z
  else if Z.even f then f else (f + 1)%Z.

Fixpoint trailing_zeros (fuel : nat) (z : Z) : nat :=
  match fuel with
  | O => O
  | S k => if (z mod 10 =? 0)%Z then S (trailing_zeros k (z / 10)) else O
  end.

(** [len(f"{price:.10f}".rstrip('0').split('.')[1])]: of the ten printed
    decimals, those left after the trailing zeros are removed. *)
Definition decimals_of (p : Q) : nat :=
  (10 - trailing_zeros 10 (Z.abs (round_half_even (p * inject_Z (10 ^ 10)))))%nat.

(** [int((price * 100) % 10)], on the exact product; the source floors the
    rounded product, which differs when [price * 100] rounds across an
    integer (1.15 * 100 gives 114.99999999999999 in floats). *)
Definition last_digit (p : Q) : Z := (Qfloor (p * 100) mod 10)%Z.

Definition analyze_entry_precision (deals_df : list Deal) : option PrecisionResult :=
  match deals_df with
  | [] => None
  | _ =>
      let prices := map price deals_df in
      let decimal_places := map decimals_of prices in
      match value_counts Nat.eqb decimal_places with
      | [] => None
      | (most_common_decimals, count) :: _ =>
          let precision_ratio := Qnat count / Qlen decimal_places in
          let round_prices :=
            List.length (filter (fun p => (last_digit p =? 0)%Z || (last_digit p =? 5)%Z)
                                prices) in
          let round_ratio := Qnat round_prices / Qlen prices in
          Some {|
            most_common_decimal_places := most_common_decimals;
            precision_consistency := precision_ratio;
            is_algorithmic_precision := Qltb 0.7 precision_ratio;
            round_number_ratio := round_ratio;
            precision_evidence :=
              if Qltb 0.5 round_ratio then
                Some [mkEvidence "High percentage of round-number entries suggests psychological levels or manual trading" []]
              else if Qltb 0.8 precision_ratio then
                Some [mkEvidence "Consistent decimal precision suggests algorithmic entry" []]
              else None
          |}
      end
  end.

(** ** Runs of same-direction deals *)

(** Lengths of the maximal runs of equal consecutive values. *)
Fixpoint run_lengths (l : list Z) : list nat :=
  match l with
  | [] => []
  | x :: r =>
      match run_lengths r with
      | n :: ns => if (hd x r =? x)%Z then S n :: ns else 1%nat :: n :: ns
      | [] => [1%nat]
      end
  end.

(** Number of values equal to their predecessor, [prev] preceding the head. *)
Fixpoint repeats (prev : option Z) (l : list Z) : nat :=
  match l with
  | [] => O
  | x :: r =>
      ((if match prev with Some p => (x =? p)%Z | None => false end then 1 else 0)
       + repeats (Some x) r)%nat
  end.

(** The time-sorted deal types of one symbol. *)
Definition symbol_types (deals_df : list Deal) (s : string) : list Z :=
  map type (deals_of s (sort_by time deals_df)).

(** The counter as the specification words it: one increment for each run
    of at least two consecutive same-direction deals on a symbol. *)
Definition spec_scaling_instances (deals_df : list Deal) : nat :=
  list_sum (map (fun s => List.length (filter (fun n => (2 <=? n)%nat)
                                             (run_lengths (symbol_types deals_df s))))
                (symbols deals_df)).

(** The counter as the code computes it: on a symbol with at least three
    deals, a run of [k] deals counts [k - 1] times. *)
Definition repeat_instances (deals_df : list Deal) : nat :=
  list_sum (map (fun s =>
                   if (List.length (symbol_types deals_df s) <? 3)%nat then O
                   else list_sum (map Nat.pred (run_lengths (symbol_types deals_df s))))
                (symbols (sort_by time deals_df))).

(** The same count on a given arrangement of the frame. *)
Definition repeat_instances_on (arranged : list Deal) : nat :=
  list_sum (map (fun s =>
                   if (List.length (map type (deals_of s arranged)) <? 3)%nat then O
                   else list_sum (map Nat.pred
                                      (run_lengths (map type (deals_of s arranged)))))
                (symbols arranged)).

(** [arranged] holds the rows of [deals_df] in ascending time order; rows of
    equal time may come in any order. *)
Definition time_ordered (arranged deals_df : list Deal) : Prop :=
  Permutation arranged deals_df /\
  StronglySorted (fun a b => (time a <= time b)%Z) arranged.

(** ** Grid condition in the specification's words *)


(** ** Martingale steps in the specification's words *)

(** Transitions where the prior trade lost and the next volume is at least
    1.8 times the prior volume. *)
Fixpoint spec_martingale_steps (deals_df : list Deal) : nat :=
  match deals_df with
  | prev :: ((next :: _) as rest) =>
      ((if Qltb (profit prev) 0 && Qleb (volume prev * 1.8) (volume next) then 1 else 0)
       + spec_martingale_steps rest)%nat
  | _ => O
  end.

(** ** Distance from a rounding boundary *)

(** A float product differs from the exact one by less than 2^-51 of its
    value; [rounding_margin] is a generous bound on that relative error. *)
Definition rounding_margin : Q := 1 # 1000000000000.

(** [x] is further from [boundary] than rounding can move it, so comparing
    [x] with the rounded or with the exact boundary gives the same answer. *)
Definition clear_of (x boundary : Q) : bool :=
  Qltb (Qabs boundary * rounding_margin) (Qabs (x - boundary)).

(** No volume sits at 1.8 times the volume before it, up to rounding. *)
Fixpoint steps_clear_of_boundary (deals_df : list Deal) : bool :=
  match deals_df with
  | prev :: ((next :: _) as rest) =>
      clear_of (volume next) (volume prev * 1.8) && steps_clear_of_boundary rest
  | _ => true
  end.

(** ** Sample tables *)

Definition deal_at (t : Z) (s : string) (ty : Z) (v p : Q) : Deal :=
  mkDeal t s ty 1.1 v p 0.

Definition limit_at (s : string) (p : Q) : Order := mkOrder s 2 p 0 0 0 0.

(** Four winning trades with alternating lot sizes. *)
Definition alternating_lots : list Deal :=
  [deal_at 0 "EURUSD" 0 0.1 5; deal_at 100 "EURUSD" 1 0.2 5;
   deal_at 200 "EURUSD" 0 0.1 5; deal_at 300 "EURUSD" 1 0.2 5].

(** Four winning trades with nearly equal lot sizes. *)
Definition steady_lots : list Deal :=
  [deal_at 0 "EURUSD" 0 0.10 5; deal_at 100 "EURUSD" 1 0.11 5;
   deal_at 200 "EURUSD" 0 0.10 5; deal_at 300 "EURUSD" 1 0.11 5].

(** Five pending limit orders 0.0010 apart. *)
Definition grid_orders : list Order :=
  [limit_at "EURUSD" 1.1000; limit_at "EURUSD" 1.1010; limit_at "EURUSD" 1.1020;
   limit_at "EURUSD" 1.1030; limit_at "EURUSD" 1.1040].


Definition three_buys : list Deal :=
  [deal_at 0 "EURUSD" 0 0.1 5; deal_at 100 "EURUSD" 0 0.1 5; deal_at 200 "EURUSD" 0 0.1 5].

Definition two_buys : list Deal :=
  [deal_at 0 "EURUSD" 0 0.1 5; deal_at 100 "EURUSD" 0 0.1 5].

Definition mixed_results : list Deal :=
  [deal_at 0 "EURUSD" 0 0.1 30; deal_at 100 "EURUSD" 1 0.1 (-10);
   deal_at 200 "GBPUSD" 0 0.1 0; deal_at 300 "EURUSD" 2 0.1 (-500)].

Definition hft_and_day : list TradePattern :=
  [mkTradePattern "Day Trading Strategy" 0.75 "Trading frequency analysis" [] [];
   mkTradePattern "High-Frequency Trading (HFT)" 0.85 "Trading frequency analysis" [] []].

(** ** Confidence range *)

Definition unit_interval (q : Q) : Prop := 0 <= q <= 1.

(** An absent pattern has no confidence to check. *)
Definition confidence_ok (o : option TradePattern) : Prop :=
  match o with
  | Some p => unit_interval (confidence p)
  | None => True
  end.

(** ** Risk and performance metrics ([AdvancedAnalytics]) *)

(** *** Maximum drawdown ([calculate_maximum_drawdown]) *)

Record DrawdownResult := mkDrawdownResult {
  max_drawdown : Q;
  max_drawdown_pct : Q;
  drawdown_duration_days : option Z;
  drawdown_start : option Z;
  drawdown_end : option Z
}.

(** [Series.cumsum()] *)
Fixpoint cumsum_from (acc : Q) (l : list Q) : list Q :=
  match l with
  | [] => []
  | x :: r => (acc + x) :: cumsum_from (acc + x) r
  end.

Definition cumsum (l : list Q) : list Q :=
  match l with
  | [] => []
  | x :: r => x :: cumsum_from x r
  end.

(** [Series.cummax()] *)
Fixpoint cummax_from (m : Q) (l : list Q) : list Q :=
  match l with
  | [] => []
  | x :: r => Qmax m x :: cummax_from (Qmax m x) r
  end.

Definition cummax (l : list Q) : list Q :=
  match l with
  | [] => []
  | x :: r => x :: cummax_from x r
  end.

(** Element-wise [a - b] of two columns of one frame. *)
Fixpoint sub_columns (a b : list Q) : list Q :=
  match a, b with
  | x :: a', y :: b' => (x - y) :: sub_columns a' b'
  | _, _ => []
  end.

(** Position of the first element that satisfies [f]. *)
Fixpoint first_index {A} (f : A -> bool) (l : list A) : nat :=
  match l with
  | [] => O
  | x :: r => if f x then O else S (first_index f r)
  end.

(** [Series.idxmax()]: position of the first occurrence of the maximum. *)
Definition idxmax (l : list Q) : nat :=
  first_index (fun x => Qeq_bool x (Qmaximum l)) l.

Definition calculate_maximum_drawdown (deals_df : list Deal) : DrawdownResult :=
  match deals_df with
  | [] => mkDrawdownResult 0 0 None None None
  | d0 :: _ =>
      let sorted := sort_by time deals_df in
      let cumulative_profit := cumsum (map profit sorted) in
      let running_max := cummax cumulative_profit in
      let drawdown := sub_columns running_max cumulative_profit in
      let max_dd := Qmaximum drawdown in
      let max_profit := Qmaximum running_max in
      let max_dd_idx := idxmax drawdown in
      let dd_start_idx := idxmax (firstn (S max_dd_idx) running_max) in
      let dd_start := time (nth dd_start_idx sorted d0) in
      let dd_end := time (nth max_dd_idx sorted d0) in
      {| max_drawdown := max_dd;
         max_drawdown_pct := if Qltb 0 max_profit then max_dd / max_profit * 100 else 0;
         drawdown_duration_days := Some ((dd_end - dd_start) / 86400)%Z;
         drawdown_start := Some dd_start;
         drawdown_end := Some dd_end |}
  end.

(** *** Sharpe ratio ([calculate_sharpe_ratio]) *)

(** The returned float: [0.0], or
    [excess / sqrt variance * sqrt 252] kept as its two rational parts. *)
Inductive SharpeValue :=
| SharpeZero
| SharpeOf (excess variance : Q).

(** [deals_df.groupby('date')['profit'].sum()], dates ascending. *)
Definition daily_profits (deals_df : list Deal) : list Q :=
  let dates := sort_by (fun day => day)
                 (unique_by Z.eqb (map (fun d => date_of (time d)) deals_df)) in
  map (fun day =>
         Qsum (map profit (filter (fun d => (date_of (time d) =? day)%Z) deals_df)))
      dates.

(** [std_is_zero] stands for the test [np.std(returns) == 0] on floats.
    Exact arithmetic cannot decide it: daily sums that are equal can have a
    rounded mean that differs from them, and then a deviation that is not
    zero; so the test is left to the caller. *)
Definition calculate_sharpe_ratio (std_is_zero : list Q -> bool)
    (deals_df : list Deal) (risk_free_rate : Q) : SharpeValue :=
  if (List.length deals_df <? 2)%nat then SharpeZero
  else
    let returns := daily_profits deals_df in
    if (List.length returns <? 2)%nat then SharpeZero
    else
      let avg_return := mean returns in
      let variance := var_pop returns in
      if std_is_zero returns then SharpeZero
      else SharpeOf (avg_return - risk_free_rate / 252) variance.

(** The zero test in exact arithmetic. *)
Definition exact_std_is_zero (returns : list Q) : bool :=
  Qeq_bool (var_pop returns) 0.

(** *** Trade duration ([analyze_trade_duration]) *)

Inductive DurationResult :=
| DurationEmpty
| DurationNote
| DurationStats (avg_duration median_duration min_duration max_duration : Q)
                (std_duration : Value).

(** Duration, in minutes, of every position that has at least two deals. *)
Definition position_durations (sorted : list Deal) : list Q :=
  let ids := unique_by Z.eqb (map position_id sorted) in
  flat_map (fun pos_id =>
              let pos_deals := filter (fun d => (position_id d =? pos_id)%Z) sorted in
              if (2 <=? List.length pos_deals)%nat
              then [inject_Z (Zmaximum (map time pos_deals)
                              - Zminimum (map time pos_deals)) / 60]
              else [])
           ids.

(** [has_position_id] tells whether the frame has a [position_id] column. *)
Definition analyze_trade_duration (has_position_id : bool) (deals_df : list Deal)
  : DurationResult :=
  match deals_df with
  | [] => DurationEmpty
  | _ =>
      let sorted := sort_by time deals_df in
      if has_position_id then
        match position_durations sorted with
        | [] => DurationNote
        | durations =>
            DurationStats (mean durations) (median durations)
                          (Qminimum durations) (Qmaximum durations)
                          (VSqrt (var_pop durations))
        end
      else DurationNote
  end.

(** ** Names the resolver can return *)

Definition frequency_names : list string :=
  ["High-Frequency Trading (HFT)"; "Scalping Strategy"; "Day Trading Strategy";
   "Swing Trading Strategy"; "Position Trading Strategy"].

Definition pipeline_algorithms : list string :=
  ["High-Frequency Trading Bot"; "Scheduled Scalping EA"; "Scalping Bot/EA";
   "Martingale-Based EA"; "Professional Day Trading EA"; "Day Trading Bot";
   "Swing Trading Algorithm"; "Long-Term Position Trading EA"].

(** ** More sample tables *)

(** Four trades, each lost and followed by a doubled lot. *)
Definition doubling_lots : list Deal :=
  [deal_at 0 "EURUSD" 0 0.1 (-5); deal_at 100 "EURUSD" 0 0.2 (-5);
   deal_at 200 "EURUSD" 0 0.4 (-5); deal_at 300 "EURUSD" 0 0.8 20].

Definition profit_at (t : Z) (p : Q) : Deal := mkDeal t "EURUSD" 0 1.1 0.1 p 0.

(** Profits +100, +50, -80, -40, +30 on five consecutive days. *)
Definition drawdown_sample : list Deal :=
  [profit_at 0 100; profit_at 86400 50; profit_at 172800 (-80);
   profit_at 259200 (-40); profit_at 345600 30].

(** Three deals, each the only deal of its position. *)
Definition separate_positions : list Deal :=
  [mkDeal 0 "EURUSD" 0 1.1 0.1 0 1; mkDeal 60 "EURUSD" 1 1.1 0.1 5 2;
   mkDeal 120 "EURUSD" 0 1.1 0.1 0 3].

Definition two_positions : list Deal :=
  [mkDeal 0 "EURUSD" 0 1.1 0.1 0 7; mkDeal 600 "EURUSD" 1 1.1 0.1 5 7;
   mkDeal 900 "GBPUSD" 0 1.3 0.1 0 8; mkDeal 2700 "GBPUSD" 1 1.3 0.1 (-2) 8].

(** ** Proof steps shared by the detector lemmas *)

(** Decides [0 <= c <= 1] for a confidence built from literals, splitting on
    the conditions still undecided. *)
Ltac closed_range :=
  cbn [confidence]; unfold unit_interval;
  repeat match goal with
  | |- context [if ?b then _ else _] => destruct b
  end;
  split; vm_compute; let Hgt := fresh "Hgt" in intro Hgt; discriminate Hgt.

(** The detector returns the pattern just built, within range. *)
Ltac fires := eexists; split; [reflexivity | closed_range].

(** Picks the member of a literal list that the goal names. *)
Ltac pick := repeat (first [left; reflexivity | right]).

(** The detector returns the pattern just built; its name and confidence
    remain to be examined. *)
Ltac named := eexists; split; [reflexivity | cbn [pattern_name confidence]].

(** Decides a two-sided bound between literals, splitting on the conditions
    still undecided. *)
Ltac literal_bounds :=
  repeat match goal with
  | |- context [if ?b then _ else _] => destruct b
  end;
  split; vm_compute; let Hgt := fresh "Hgt" in intro Hgt; discriminate Hgt.

(** * Properties *)

(** ** Comparisons *)

Lemma Qltb_lt (x y : Q) : Qltb x y = true <-> x < y.
Proof.
  unfold Qltb. rewrite negb_true_iff. split.
  - intros H. apply Qnot_le_lt. intros Hle.
    apply Qle_bool_iff in Hle. congruence.
  - intros H. destruct (Qle_bool y x) eqn:E; [|reflexivity].
    apply Qle_bool_iff in E. exfalso. apply (Qlt_not_le _ _ H E).
Qed.

Lemma Qltb_ge (x y : Q) : Qltb x y = false <-> y <= x.
Proof.
  unfold Qltb. rewrite negb_false_iff. apply Qle_bool_iff.
Qed.

Lemma Qleb_le (x y : Q) : Qleb x y = true <-> x <= y.
Proof. apply Qle_bool_iff. Qed.

Lemma Qnat_nonneg (n : nat) : 0 <= Qnat n.
Proof.
  unfold Qnat, Qle. simpl. lia.
Qed.

Lemma Qnat_pos (n : nat) : (0 < n)%nat -> 0 < Qnat n.
Proof.
  intros H. unfold Qnat, Qlt. simpl. lia.
Qed.

Lemma Qnat_le (a b : nat) : (a <= b)%nat -> Qnat a <= Qnat b.
Proof.
  intros H. unfold Qnat, Qle. simpl. lia.
Qed.

(** A count divided by a total is a ratio in [0, 1]. *)
Lemma ratio_bounds (a b : nat) : (a <= b)%nat -> 0 <= Qnat a / Qnat b <= 1.
Proof.
  intros Hab. destruct b as [|b].
  - assert (a = O) by lia. subst. split; vm_compute; discriminate.
  - assert (Hb : 0 < Qnat (S b)) by (apply Qnat_pos; lia).
    split.
    + apply Qle_shift_div_l; [exact Hb|]. rewrite Qmult_0_l. apply Qnat_nonneg.
    + apply Qle_shift_div_r; [exact Hb|]. rewrite Qmult_1_l. apply Qnat_le, Hab.
Qed.

Lemma ratio_nonneg (a b : nat) : 0 <= Qnat a / Qnat b.
Proof.
  destruct b as [|b].
  - unfold Qdiv, Qnat. simpl. unfold Qinv. simpl. rewrite Qmult_0_r. apply Qle_refl.
  - apply Qle_shift_div_l; [apply Qnat_pos; lia|].
    rewrite Qmult_0_l. apply Qnat_nonneg.
Qed.

(** ** Resolver *)

Lemma name_in_In (name : string) (l : list string) :
  name_in name l = true <-> In name l.
Proof.
  unfold name_in. rewrite existsb_exists. split.
  - intros [x [Hx He]]. apply String.eqb_eq in He. subst. exact Hx.
  - intros H. exists name. split; [exact H | apply String.eqb_refl].
Qed.

(** Rule 1 alone decides the result whenever the HFT name is present. *)
Lemma hft_rule_first (patterns : list TradePattern) (stats : option Stats) :
  In "High-Frequency Trading (HFT)" (map pattern_name patterns) ->
  _determine_algorithm_type patterns stats = "High-Frequency Trading Bot".
Proof.
  intros H. apply name_in_In in H.
  unfold _determine_algorithm_type. rewrite H. reflexivity.
Qed.

Lemma name_in_insert (name n : string) (l1 l2 : list string) :
  String.eqb name n = false ->
  name_in name (l1 ++ n :: l2) = name_in name (l1 ++ l2).
Proof.
  intros H. unfold name_in. rewrite !existsb_app. simpl. rewrite H. reflexivity.
Qed.

Lemma contains_insert (sub n : string) (l1 l2 : list string) :
  contains sub n = false ->
  existsb (contains sub) (l1 ++ n :: l2) = existsb (contains sub) (l1 ++ l2).
Proof.
  intros H. rewrite !existsb_app. simpl. rewrite H. reflexivity.
Qed.

(** A pattern named "Unknown Risk Management" is invisible to the resolver. *)
Lemma unknown_risk_unmatched (p : TradePattern) (l1 l2 : list TradePattern)
    (stats : option Stats) :
  pattern_name p = "Unknown Risk Management" ->
  _determine_algorithm_type (l1 ++ p :: l2) stats =
  _determine_algorithm_type (l1 ++ l2) stats.
Proof.
  intros Hp. unfold _determine_algorithm_type.
  rewrite !map_app. simpl map. rewrite Hp.
  rewrite !name_in_insert by reflexivity.
  rewrite contains_insert by reflexivity.
  reflexivity.
Qed.

(** C2. The resolver is a first-match cascade: whenever the detected pattern
    names include both "High-Frequency Trading (HFT)" and "Day Trading
    Strategy", the resolved algorithm is "High-Frequency Trading Bot" (rule 1
    wins over rule 4), whatever the other patterns and the statistics. *)
Theorem resolver_hft_over_day_trading (patterns : list TradePattern)
    (stats : option Stats) :
  In "High-Frequency Trading (HFT)" (map pattern_name patterns) ->
  In "Day Trading Strategy" (map pattern_name patterns) ->
  _determine_algorithm_type patterns stats = "High-Frequency Trading Bot".
Proof.
  intros Hhft _. apply hft_rule_first. exact Hhft.
Qed.

Lemma resolver_hft_over_day_trading_witness :
  _determine_algorithm_type hft_and_day None = "High-Frequency Trading Bot".
Proof.
  apply (resolver_hft_over_day_trading hft_and_day None).
  - simpl. right. left. reflexivity.
  - simpl. left. reflexivity.
Defined.

(** Without the HFT name the same list falls through to rule 4. *)
Lemma day_trading_rule_alone :
  _determine_algorithm_type (firstn 1 hft_and_day) None = "Day Trading Bot".
Proof. reflexivity. Qed.

(** ** Empty tables *)

(** C5. On an empty deals table every detector reports absence: the five
    core detectors return [None], the five advanced [detect_*] functions
    return their not-detected result with confidence 0 and no other key, and
    the entry-precision analysis returns the empty result. *)
Theorem empty_deals_absence (orders_df : list Order) :
  detect_position_sizing_pattern [] = None /\
  detect_time_based_patterns [] = None /\
  detect_risk_management_pattern [] orders_df = None /\
  detect_trading_frequency_pattern [] = None /\
  detect_symbol_pattern [] = None /\
  detect_grid_trading [] orders_df = mkGridResult false 0 None None /\
  detect_news_trading [] = mkNewsResult false 0 None None None /\
  detect_correlation_trading [] = mkCorrelationResult false 0 None None None /\
  detect_hedging_strategy [] = mkHedgingResult false 0 None None None /\
  detect_scaling_in_out [] = mkScalingResult false 0 None None /\
  analyze_entry_precision [] = None.
Proof.
  repeat split; reflexivity.
Qed.

(** ** Risk management without orders *)

(** C10. With deals but no orders the risk-management detector still returns
    a pattern: it is named "Unknown Risk Management", has confidence 0.5,
    carries no stop-loss or take-profit usage metric, and no resolver rule
    reacts to it (inserting it anywhere in a pattern list leaves the resolved
    algorithm unchanged). *)
Theorem risk_management_without_orders (deals_df : list Deal) :
  deals_df <> [] ->
  exists p,
    detect_risk_management_pattern deals_df [] = Some p /\
    pattern_name p = "Unknown Risk Management" /\
    confidence p = 0.5 /\
    (forall v, ~ In ("stop_loss_usage_pct", v) (metrics p)) /\
    (forall v, ~ In ("take_profit_usage_pct", v) (metrics p)) /\
    (forall l1 l2 stats,
        _determine_algorithm_type (l1 ++ p :: l2) stats =
        _determine_algorithm_type (l1 ++ l2) stats).
Proof.
  intros Hne. destruct deals_df as [|d0 rest]; [congruence|].
  unfold detect_risk_management_pattern.
  destruct (filter (fun p => Qltb 0 p) (map profit (d0 :: rest))) as [|w ws];
    [|destruct (filter (fun p => Qltb p 0) (map profit (d0 :: rest))) as [|l ls]];
    (eexists; split; [reflexivity|]);
    (split; [reflexivity|]); (split; [reflexivity|]);
    (split; [|split]);
    try (intros v Hin; simpl in Hin; intuition discriminate);
    intros l1 l2 stats; apply unknown_risk_unmatched; reflexivity.
Qed.

Lemma risk_management_without_orders_witness :
  exists p,
    detect_risk_management_pattern mixed_results [] = Some p /\
    pattern_name p = "Unknown Risk Management" /\
    confidence p = 0.5 /\
    (forall v, ~ In ("stop_loss_usage_pct", v) (metrics p)) /\
    (forall v, ~ In ("take_profit_usage_pct", v) (metrics p)) /\
    (forall l1 l2 stats,
        _determine_algorithm_type (l1 ++ p :: l2) stats =
        _determine_algorithm_type (l1 ++ l2) stats).
Proof.
  apply (risk_management_without_orders mixed_results). discriminate.
Defined.

(** ** Signature *)


(** ** Every core detector fires on a non-empty table, within range *)

Lemma position_sizing_fires (d0 : Deal) (rest : list Deal) :
  exists p, detect_position_sizing_pattern (d0 :: rest) = Some p /\
            unit_interval (confidence p).
Proof.
  unfold detect_position_sizing_pattern. cbv zeta.
  repeat match goal with
  | |- context [if ?b then _ else _] => destruct b
  end; fires.
Qed.

Lemma time_based_fires (d0 : Deal) (rest : list Deal) :
  exists p, detect_time_based_patterns (d0 :: rest) = Some p /\
            unit_interval (confidence p).
Proof.
  unfold detect_time_based_patterns. cbv zeta.
  destruct (Qltb 50 _); [|destruct (Qltb 30 _)];
    (eexists; split; [reflexivity|]); cbn [confidence]; unfold unit_interval;
    match goal with
    | |- context [if ?b then Qmax _ _ else _] => destruct b
    end; split; vm_compute; intro Hgt; discriminate Hgt.
Qed.

Lemma risk_management_fires (d0 : Deal) (rest : list Deal) (orders_df : list Order) :
  exists p, detect_risk_management_pattern (d0 :: rest) orders_df = Some p /\
            unit_interval (confidence p).
Proof.
  unfold detect_risk_management_pattern. cbv zeta.
  destruct orders_df as [|o os].
  - destruct (filter _ _); [|destruct (filter _ _)]; fires.
  - destruct (Qltb 80 _ && Qltb 80 _);
      [|destruct (Qltb 80 _); [|destruct (Qltb 80 _)]];
      (destruct (filter (fun p => Qltb 0 p) _);
       [|destruct (filter (fun p => Qltb p 0) _)]); fires.
Qed.

(** The consistency bonus is only ever added to 0.85, 0.8, 0.75 or 0.7, so
    the result stays at or below 0.9 although nothing clamps it. *)
Lemma trading_frequency_fires (d0 : Deal) (rest : list Deal) :
  exists p, detect_trading_frequency_pattern (d0 :: rest) = Some p /\
            0 <= confidence p <= 0.9.
Proof.
  unfold detect_trading_frequency_pattern. cbv zeta.
  destruct (Qltb 50 _);
    [|destruct (Qltb 20 _); [|destruct (Qltb 5 _); [|destruct (Qltb 1 _)]]];
    (eexists; split; [reflexivity|]); cbn [confidence];
    match goal with
    | |- context [if ?b then _ + _ else _] => destruct b
    end; split; vm_compute; intro Hgt; discriminate Hgt.
Qed.

Lemma symbol_fires (d0 : Deal) (rest : list Deal) :
  exists p, detect_symbol_pattern (d0 :: rest) = Some p /\
            unit_interval (confidence p).
Proof.
  unfold detect_symbol_pattern. cbv zeta.
  destruct (_ =? 1)%nat; [|destruct (Qltb 70 _); [|destruct (_ <=? 5)%nat]]; fires.
Qed.

(** The five patterns of a non-empty table and their confidences. *)
Lemma pipeline_patterns (d0 : Deal) (rest : list Deal) (orders_df : list Order)
    (now : Z) :
  exists p1 p2 p3 p4 p5,
    patterns (identify_algorithm_type (d0 :: rest) orders_df now) = [p1; p2; p3; p4; p5] /\
    sig_confidence (identify_algorithm_type (d0 :: rest) orders_df now) =
      Qsum (map confidence [p1; p2; p3; p4; p5]) / Qlen [p1; p2; p3; p4; p5] /\
    unit_interval (confidence p1) /\ unit_interval (confidence p2) /\
    unit_interval (confidence p3) /\ 0 <= confidence p4 <= 0.9 /\
    unit_interval (confidence p5).
Proof.
  destruct (position_sizing_fires d0 rest) as (p1 & E1 & B1).
  destruct (time_based_fires d0 rest) as (p2 & E2 & B2).
  destruct (risk_management_fires d0 rest orders_df) as (p3 & E3 & B3).
  destruct (trading_frequency_fires d0 rest) as (p4 & E4 & B4).
  destruct (symbol_fires d0 rest) as (p5 & E5 & B5).
  exists p1, p2, p3, p4, p5.
  unfold identify_algorithm_type. cbn [patterns sig_confidence].
  rewrite E1, E2, E3, E4, E5. cbn [drop_none].
  repeat split; try tauto; try apply B1; try apply B2; try apply B3;
    try apply B4; try apply B5.
Qed.

(** C3. The signature's confidence is the arithmetic mean of the confidences
    of the patterns that fired, and 0 when none fired.  The fired patterns are
    the non-[None] results of the five core detectors, in call order: none on
    an empty deals table, all five otherwise. *)
Theorem signature_confidence_is_mean (deals_df : list Deal) (orders_df : list Order)
    (now : Z) :
  let s := identify_algorithm_type deals_df orders_df now in
  patterns s =
    drop_none [detect_position_sizing_pattern deals_df;
               detect_time_based_patterns deals_df;
               detect_risk_management_pattern deals_df orders_df;
               detect_trading_frequency_pattern deals_df;
               detect_symbol_pattern deals_df] /\
  ((deals_df = [] /\ patterns s = [] /\ sig_confidence s = 0) \/
   (deals_df <> [] /\ List.length (patterns s) = 5%nat /\
    sig_confidence s = mean (map confidence (patterns s)))).
Proof.
  cbv zeta. split; [reflexivity|].
  destruct deals_df as [|d0 rest].
  - left. repeat split; reflexivity.
  - right. split; [discriminate|].
    destruct (pipeline_patterns d0 rest orders_df now)
      as (p1 & p2 & p3 & p4 & p5 & Hp & Hc & _).
    rewrite Hp, Hc. split; reflexivity.
Qed.

(** ** Profit factor *)

Lemma Qsum_nonneg (l : list Q) : Forall (fun x => 0 <= x) l -> 0 <= Qsum l.
Proof.
  induction 1 as [|x l Hx _ IH]; simpl.
  - apply Qle_refl.
  - lra.
Qed.





(** The statistics exist exactly when some deal is a buy or a sell. *)
Lemma statistics_defined_iff (deals_df : list Deal) :
  calculate_trade_statistics deals_df <> None <-> filter is_trade deals_df <> [].
Proof.
  unfold calculate_trade_statistics.
  destruct (filter is_trade deals_df); split; intros H; congruence.
Qed.

(** ** Confidence bounds *)

Lemma Qmin_cap_range (a cap : Q) :
  0 <= a -> unit_interval cap -> unit_interval (Qmin a cap).
Proof.
  intros Ha [Hc0 Hc1]. split.
  - apply Q.min_glb; assumption.
  - apply Qle_trans with cap; [apply Q.le_min_r | exact Hc1].
Qed.

Lemma scaled_ratio_nonneg (a b : nat) (k : Q) (guard : bool) :
  0 <= k -> 0 <= (if guard then Qnat a / Qnat b else 0) * k.
Proof.
  intros Hk. apply Qmult_le_0_compat; [|exact Hk].
  destruct guard; [apply ratio_nonneg | apply Qle_refl].
Qed.

(** What the loop over symbols leaves in the result: either no symbol passed
    the test and the result is untouched, or the flag, the confidence and the
    spacing are those written for the last symbol that passed. *)
Lemma grid_fold (orders_df : list Order) (ss : list string) (r0 : GridResult) :
  (existsb (fun s => grid_hit (orders_of s orders_df)) ss = false /\
   fold_left (grid_step orders_df) ss r0 = r0) \/
  (exists s, In s ss /\ grid_hit (orders_of s orders_df) = true /\
     is_grid (fold_left (grid_step orders_df) ss r0) = true /\
     grid_confidence (fold_left (grid_step orders_df) ss r0) = 0.8 /\
     grid_spacing (fold_left (grid_step orders_df) ss r0) =
       Some (mean (grid_price_diffs (orders_of s orders_df)))).
Proof.
  revert r0. induction ss as [|s ss IH]; intros r0.
  - left. split; reflexivity.
  - cbn [fold_left existsb].
    destruct (IH (grid_step orders_df r0 s)) as [[Hno Hr] | (s' & Hin & Hhit & Hr)].
    + rewrite Hr, Hno. unfold grid_step.
      destruct (grid_hit (orders_of s orders_df)) eqn:Hs.
      * right. exists s. split; [left; reflexivity|].
        split; [exact Hs|]. repeat split; reflexivity.
      * left. split; reflexivity.
    + right. exists s'. split; [right; exact Hin|]. split; [exact Hhit | exact Hr].
Qed.

Lemma grid_confidence_range (deals_df : list Deal) (orders_df : list Order) :
  unit_interval (grid_confidence (detect_grid_trading deals_df orders_df)).
Proof.
  assert (H0 : unit_interval 0) by (split; vm_compute; discriminate).
  unfold detect_grid_trading.
  destruct deals_df as [|d0 rest]; [exact H0|].
  destruct orders_df as [|o os]; [exact H0|].
  destruct (grid_fold (o :: os) (symbols (d0 :: rest)) (mkGridResult false 0 (Some []) None))
    as [[_ Hr] | (s & _ & _ & _ & Hc & _)].
  - rewrite Hr. exact H0.
  - rewrite Hc. split; vm_compute; discriminate.
Qed.

(** C4. Every confidence the detectors produce, and the aggregate confidence
    of the signature, lies in [0, 1] for all deals and orders tables.  The
    trading-frequency detector adds its 0.05 bonus without clamping, yet its
    largest branch value is 0.85, so it never exceeds 0.9. *)
Theorem confidences_in_unit_interval (deals_df : list Deal) (orders_df : list Order)
    (now : Z) :
  confidence_ok (detect_position_sizing_pattern deals_df) /\
  confidence_ok (detect_time_based_patterns deals_df) /\
  confidence_ok (detect_risk_management_pattern deals_df orders_df) /\
  confidence_ok (detect_trading_frequency_pattern deals_df) /\
  confidence_ok (detect_symbol_pattern deals_df) /\
  unit_interval (grid_confidence (detect_grid_trading deals_df orders_df)) /\
  unit_interval (news_confidence (detect_news_trading deals_df)) /\
  unit_interval (correlation_confidence (detect_correlation_trading deals_df)) /\
  unit_interval (hedging_confidence (detect_hedging_strategy deals_df)) /\
  unit_interval (scaling_confidence (detect_scaling_in_out deals_df)) /\
  unit_interval (sig_confidence (identify_algorithm_type deals_df orders_df now)).
Proof.
  assert (H0 : unit_interval 0) by (split; vm_compute; discriminate).
  assert (H90 : unit_interval 0.9) by (split; vm_compute; discriminate).
  assert (H85 : unit_interval 0.85) by (split; vm_compute; discriminate).
  destruct deals_df as [|d0 rest].
  - repeat split; try exact I; vm_compute; discriminate.
  - destruct (position_sizing_fires d0 rest) as (p1 & E1 & B1).
    destruct (time_based_fires d0 rest) as (p2 & E2 & B2).
    destruct (risk_management_fires d0 rest orders_df) as (p3 & E3 & B3).
    destruct (trading_frequency_fires d0 rest) as (p4 & E4 & B4).
    destruct (symbol_fires d0 rest) as (p5 & E5 & B5).
    rewrite E1, E2, E3, E4, E5. cbn [confidence_ok].
    split; [exact B1|]. split; [exact B2|]. split; [exact B3|].
    split; [unfold unit_interval; lra|]. split; [exact B5|].
    split; [apply grid_confidence_range|].
    split; [|split; [|split; [|split]]].
    + unfold detect_news_trading. cbn [news_confidence].
      apply Qmin_cap_range; [|exact H90].
      apply (scaled_ratio_nonneg _ (List.length (d0 :: rest))).
      vm_compute; discriminate.
    + unfold detect_correlation_trading. cbn [correlation_confidence].
      apply Qmin_cap_range; [|exact H85].
      apply scaled_ratio_nonneg. vm_compute; discriminate.
    + unfold detect_hedging_strategy.
      destruct (fold_left _ _ _) as [instances total].
      cbn [hedging_confidence].
      apply Qmin_cap_range; [|exact H85].
      apply scaled_ratio_nonneg. vm_compute; discriminate.
    + unfold detect_scaling_in_out, detect_scaling_in_out_with.
      cbn [scaling_confidence].
      apply Qmin_cap_range; [|exact H85].
      apply Qmult_le_0_compat; [apply Qnat_nonneg | vm_compute; discriminate].
    + destruct (pipeline_patterns d0 rest orders_df now)
        as (q1 & q2 & q3 & q4 & q5 & _ & Hc & C1 & C2 & C3 & C4 & C5).
      rewrite Hc. unfold unit_interval in *. cbn [map Qsum fold_right].
      change (Qlen [q1; q2; q3; q4; q5]) with 5.
      split.
      * apply Qle_shift_div_l; [reflexivity | lra].
      * apply Qle_shift_div_r; [reflexivity | lra].
Qed.

(** ** Position sizing *)

(** The loop counts exactly the martingale steps of the specification. *)
Lemma martingale_loop_count (v0 : Q) (rest : list Deal) :
  forall (prev : Deal) (st : bool * nat),
    snd (martingale_loop v0 prev rest st) =
    (snd st + spec_martingale_steps (prev :: rest))%nat.
Proof.
  induction rest as [|d rest IH]; intros prev st.
  - simpl. lia.
  - cbn [martingale_loop]. rewrite IH.
    change (spec_martingale_steps (prev :: d :: rest)) with
      ((if Qltb (profit prev) 0 && Qleb (volume prev * 1.8) (volume d) then 1 else 0)
       + spec_martingale_steps (d :: rest))%nat.
    destruct (Qltb (profit prev) 0 && Qleb (volume prev * 1.8) (volume d)).
    + cbn [snd]. lia.
    + destruct (Qltb 0 (profit prev) && Qleb (volume d) (v0 * 1.2)); cbn [snd]; lia.
Qed.

Lemma martingale_count_spec (deals_df : list Deal) :
  martingale_count deals_df = spec_martingale_steps deals_df.
Proof.
  destruct deals_df as [|d0 rest]; [reflexivity|].
  unfold martingale_count. rewrite martingale_loop_count. reflexivity.
Qed.

(** With more than three trades, differing lot sizes and martingale steps on
    fewer than 30% of the transitions, the detector never reaches the
    coefficient-of-variation test: it returns the initial "Unknown" name with
    confidence 0 and no evidence. *)
Lemma position_sizing_falls_through (deals_df : list Deal) :
  (3 < List.length deals_df)%nat ->
  List.length (unique_by Qeq_bool (map volume deals_df)) <> 1%nat ->
  (10 * spec_martingale_steps deals_df < 3 * (List.length deals_df - 1))%nat ->
  detect_position_sizing_pattern deals_df =
  Some (mkTradePattern "Unknown" 0 "Position sizing strategy analysis" [] []).
Proof.
  intros Hlen Hdistinct Hsteps.
  destruct deals_df as [|d0 rest]; [simpl in Hlen; lia|].
  unfold detect_position_sizing_pattern. cbv zeta.
  apply Nat.eqb_neq in Hdistinct. rewrite Hdistinct.
  rewrite length_map.
  apply Nat.ltb_lt in Hlen. rewrite Hlen.
  rewrite martingale_count_spec.
  assert (Hq : Qltb (Qlen (map volume (d0 :: rest)) * 0.3)
                    (Qnat (spec_martingale_steps (d0 :: rest))) = false).
  { apply Qltb_ge. unfold Qlen, Qnat. rewrite length_map.
    unfold Qle, Qmult, inject_Z. cbn [Qnum Qden]. lia. }
  rewrite Hq. reflexivity.
Qed.

(** C1 (the code departs from the claim).  Both sample tables have four
    trades, differing lot sizes and no martingale step.  The claim asks for
    "Dynamic/Variable Sizing" (0.6) on the first, whose coefficient of
    variation is at least 0.2, and for "Consistent Proportional Sizing" (0.7)
    on the second, whose coefficient of variation is below 0.2.  The code
    returns the pattern "Unknown" with confidence 0 on both. *)
Theorem position_sizing_unknown_on_four_trades :
  (List.length alternating_lots = 4%nat /\
   List.length (unique_by Qeq_bool (map volume alternating_lots)) = 2%nat /\
   spec_martingale_steps alternating_lots = O /\
   0 < mean (map volume alternating_lots) /\
   sqrt_lt (var_pop (map volume alternating_lots))
           (0.2 * mean (map volume alternating_lots)) = false /\
   detect_position_sizing_pattern alternating_lots =
     Some (mkTradePattern "Unknown" 0 "Position sizing strategy analysis" [] [])) /\
  (List.length steady_lots = 4%nat /\
   List.length (unique_by Qeq_bool (map volume steady_lots)) = 2%nat /\
   spec_martingale_steps steady_lots = O /\
   0 < mean (map volume steady_lots) /\
   sqrt_lt (var_pop (map volume steady_lots))
           (0.2 * mean (map volume steady_lots)) = true /\
   detect_position_sizing_pattern steady_lots =
     Some (mkTradePattern "Unknown" 0 "Position sizing strategy analysis" [] [])).
Proof.
  repeat split; vm_compute; reflexivity.
Qed.

(** The coefficient-of-variation branch is reached with two or three trades
    only. *)
Lemma position_sizing_cv_branch_small_tables :
  option_map pattern_name (detect_position_sizing_pattern (firstn 3 alternating_lots))
    = Some "Dynamic/Variable Sizing" /\
  option_map pattern_name (detect_position_sizing_pattern (firstn 3 steady_lots))
    = Some "Consistent Proportional Sizing".
Proof.
  split; vm_compute; reflexivity.
Qed.

(** ** Grid trading *)

Lemma unique_by_In (x : string) (l : list string) :
  In x (unique_by String.eqb l) <-> In x l.
Proof.
  induction l as [|y l IH]; [reflexivity|].
  cbn [unique_by]. split.
  - intros [Hy | Hin]; [left; exact Hy|].
    apply filter_In in Hin. right. apply IH. apply Hin.
  - intros [Hy | Hin]; [left; exact Hy|].
    destruct (String.eqb y x) eqn:E.
    + apply String.eqb_eq in E. left. exact E.
    + right. apply filter_In. split; [apply IH; exact Hin|].
      rewrite E. reflexivity.
Qed.


(** On non-empty tables the flag is raised exactly when some traded symbol
    passes the test; the confidence is then 0.8 and the spacing is the mean
    difference of such a symbol. *)
Lemma grid_detection_core (deals_df : list Deal) (orders_df : list Order) (s : string) :
  In s (map symbol deals_df) ->
  grid_hit (orders_of s orders_df) = true ->
  is_grid (detect_grid_trading deals_df orders_df) = true /\
  grid_confidence (detect_grid_trading deals_df orders_df) = 0.8 /\
  exists s',
    In s' (map symbol deals_df) /\
    grid_hit (orders_of s' orders_df) = true /\
    grid_spacing (detect_grid_trading deals_df orders_df) =
      Some (mean (grid_price_diffs (orders_of s' orders_df))).
Proof.
  intros Hin Hhit.
  unfold detect_grid_trading.
  destruct deals_df as [|d0 rest]; [destruct Hin|].
  destruct orders_df as [|o os]; [discriminate Hhit|].
  destruct (grid_fold (o :: os) (symbols (d0 :: rest)) (mkGridResult false 0 (Some []) None))
    as [[Hno _] | (s' & Hin' & Hhit' & Hg & Hc & Hs)].
  - exfalso.
    assert (Hex : existsb (fun s0 => grid_hit (orders_of s0 (o :: os)))
                          (symbols (d0 :: rest)) = true).
    { apply existsb_exists. exists s. split; [|exact Hhit].
      apply unique_by_In. exact Hin. }
    congruence.
  - split; [exact Hg|]. split; [exact Hc|].
    exists s'. split; [apply unique_by_In; exact Hin'|]. split; [exact Hhit' | exact Hs].
Qed.



(** The five orders of the example, for any deals table that trades the
    symbol: grid detected, confidence 0.8, spacing about 0.0010 (within one
    billionth; the exact mean of the four differences is 0.0010, the mean
    the floats give differs from it in the last digits). *)
Lemma grid_example (deals_df : list Deal) :
  In "EURUSD" (map symbol deals_df) ->
  is_grid (detect_grid_trading deals_df grid_orders) = true /\
  grid_confidence (detect_grid_trading deals_df grid_orders) = 0.8 /\
  exists spacing,
    grid_spacing (detect_grid_trading deals_df grid_orders) = Some spacing /\
    Qabs (spacing - 0.0010) <= 1 # 1000000000.
Proof.
  intros Hin.
  destruct (grid_detection_core deals_df grid_orders "EURUSD" Hin eq_refl)
    as (Hg & Hc & s' & _ & Hhit & Hs).
  split; [exact Hg|]. split; [exact Hc|].
  eexists. split; [exact Hs|].
  assert (Hs' : orders_of s' grid_orders = grid_orders \/ orders_of s' grid_orders = []).
  { unfold orders_of, grid_orders, limit_at. cbn [filter o_symbol].
    destruct (String.eqb "EURUSD" s'); [left | right]; reflexivity. }
  destruct Hs' as [E | E]; rewrite E in *.
  - vm_compute. discriminate.
  - discriminate Hhit.
Qed.


(** ** Scaling in/out *)

(** Once past the first deal the run counter is at least 1, so the inner
    test [consecutive_same_type >= 2] always succeeds: the loop adds one for
    every deal that repeats the type of its predecessor. *)
Lemma scaling_loop_repeats (types : list Z) :
  forall (c : nat) (prev : option Z) (n : nat),
    (1 <= c)%nat ->
    snd (fold_left scaling_body types (c, prev, n)) = (n + repeats prev types)%nat.
Proof.
  induction types as [|x types IH]; intros c prev n Hc.
  - simpl. lia.
  - cbn [fold_left repeats]. unfold scaling_body at 2.
    destruct (match prev with Some p => (x =? p)%Z | None => false end).
    + rewrite IH by lia.
      destruct (Nat.leb_spec 2 (S c)); lia.
    + rewrite IH by lia. lia.
Qed.

Lemma run_lengths_head (x : Z) (r : list Z) :
  exists n ns, run_lengths (x :: r) = S n :: ns.
Proof.
  revert x. induction r as [|y r IH]; intros x.
  - exists O, []. reflexivity.
  - destruct (IH y) as (n & ns & E).
    cbn [run_lengths] in *. rewrite E. cbn [hd].
    destruct (y =? x)%Z; eauto.
Qed.

(** A run of [k] equal values holds [k - 1] repeats. *)
Lemma repeats_run_lengths (r : list Z) :
  forall x, repeats (Some x) r = list_sum (map Nat.pred (run_lengths (x :: r))).
Proof.
  induction r as [|y r IH]; intros x.
  - reflexivity.
  - cbn [repeats]. rewrite IH.
    destruct (run_lengths_head y r) as (n & ns & E).
    change (run_lengths (x :: y :: r)) with
      (match run_lengths (y :: r) with
       | n :: ns => if (hd x (y :: r) =? x)%Z then S n :: ns else 1%nat :: n :: ns
       | [] => [1%nat]
       end).
    rewrite E. cbn [hd].
    destruct (y =? x)%Z; cbn [map list_sum fold_right Nat.pred]; lia.
Qed.

Lemma repeats_none (types : list Z) :
  repeats None types = list_sum (map Nat.pred (run_lengths types)).
Proof.
  destruct types as [|x r]; [reflexivity|].
  cbn [repeats]. rewrite repeats_run_lengths. reflexivity.
Qed.

Lemma scaling_fold (sorted : list Deal) (ss : list string) :
  forall n,
    fold_left (scaling_step sorted) ss n =
    (n + list_sum (map (fun s =>
           if (List.length (map type (deals_of s sorted)) <? 3)%nat then O
           else list_sum (map Nat.pred (run_lengths (map type (deals_of s sorted)))))
         ss))%nat.
Proof.
  induction ss as [|s ss IH]; intros n.
  - simpl. lia.
  - cbn [fold_left map list_sum fold_right]. rewrite IH.
    unfold scaling_step. rewrite length_map.
    destruct (List.length (deals_of s sorted) <? 3)%nat.
    + fold (list_sum (map (fun s0 =>
           if (List.length (map type (deals_of s0 sorted)) <? 3)%nat then O
           else list_sum (map Nat.pred (run_lengths (map type (deals_of s0 sorted)))))
         ss)). lia.
    + rewrite scaling_loop_repeats by lia. rewrite repeats_none.
      fold (list_sum (map (fun s0 =>
           if (List.length (map type (deals_of s0 sorted)) <? 3)%nat then O
           else list_sum (map Nat.pred (run_lengths (map type (deals_of s0 sorted)))))
         ss)). lia.
Qed.

Lemma scaling_instances_on_repeats (arranged : list Deal) :
  scaling_instances_on arranged = repeat_instances_on arranged.
Proof.
  unfold scaling_instances_on, repeat_instances_on.
  rewrite scaling_fold. reflexivity.
Qed.

Lemma count_scaling_instances_repeats (deals_df : list Deal) :
  count_scaling_instances deals_df = repeat_instances deals_df.
Proof.
  unfold count_scaling_instances. rewrite scaling_instances_on_repeats.
  unfold repeat_instances_on, repeat_instances, symbol_types. reflexivity.
Qed.

Lemma Permutation_filter_same {A} (f : A -> bool) (l l' : list A) :
  Permutation l l' -> Permutation (filter f l) (filter f l').
Proof.
  induction 1 as [|x l l' _ IH|x y l|l l' l'' _ IH1 _ IH2].
  - constructor.
  - cbn [filter]. destruct (f x); [constructor; exact IH | exact IH].
  - cbn [filter]. destruct (f x); destruct (f y);
      try apply Permutation_refl. apply perm_swap.
  - eapply Permutation_trans; eassumption.
Qed.

Lemma StronglySorted_filter {A} (R : A -> A -> Prop) (f : A -> bool) (l : list A) :
  StronglySorted R l -> StronglySorted R (filter f l).
Proof.
  induction 1 as [|x l Hs IH Hx]; [constructor|].
  cbn [filter]. destruct (f x); [|exact IH].
  constructor; [exact IH|].
  apply Forall_forall. intros y Hy. apply filter_In in Hy.
  rewrite Forall_forall in Hx. apply Hx, Hy.
Qed.

Lemma insert_by_Permutation {A} (key : A -> Z) (x : A) (l : list A) :
  Permutation (insert_by key x l) (x :: l).
Proof.
  induction l as [|y l IH]; [apply Permutation_refl|].
  cbn [insert_by]. destruct (key x <=? key y)%Z; [apply Permutation_refl|].
  eapply Permutation_trans; [apply perm_skip, IH | apply perm_swap].
Qed.

Lemma sort_by_Permutation {A} (key : A -> Z) (l : list A) :
  Permutation (sort_by key l) l.
Proof.
  induction l as [|x l IH]; [constructor|].
  unfold sort_by in *. cbn [fold_right].
  eapply Permutation_trans; [apply insert_by_Permutation | apply perm_skip, IH].
Qed.

Lemma insert_by_ascending {A} (key : A -> Z) (x : A) (l : list A) :
  StronglySorted (fun a b => (key a <= key b)%Z) l ->
  StronglySorted (fun a b => (key a <= key b)%Z) (insert_by key x l).
Proof.
  induction 1 as [|y l Hs IH Hy]; [repeat constructor|].
  cbn [insert_by]. destruct (Z.leb_spec (key x) (key y)) as [H | H].
  - constructor; [constructor; assumption|].
    constructor; [exact H|].
    apply Forall_forall. intros z Hz. rewrite Forall_forall in Hy.
    specialize (Hy z Hz). lia.
  - constructor; [exact IH|].
    apply Forall_forall. intros z Hz.
    apply (Permutation_in _ (insert_by_Permutation key x l)) in Hz.
    destruct Hz as [<- | Hz]; [lia|].
    rewrite Forall_forall in Hy. apply Hy, Hz.
Qed.

(** The stable sort is one of the arrangements [sort_values] may return. *)
Lemma sort_by_time_ordered (deals_df : list Deal) :
  time_ordered (sort_by time deals_df) deals_df.
Proof.
  split; [apply sort_by_Permutation|].
  induction deals_df as [|d l IH]; [constructor|].
  unfold sort_by in *. cbn [fold_right]. apply insert_by_ascending, IH.
Qed.

(** C8 (as the code has it).  Take a non-empty deals table in the ascending
    time order the sort leaves it in, whichever way rows of equal time are
    arranged.  The counter is the sum, over the symbols with at least three
    deals, of [k - 1] for every run of [k] consecutive same-direction deals
    of the symbol in that order (one increment for each deal that repeats
    the direction of the deal before it); each symbol's deals are its deals
    of the table in ascending time order; the result is flagged exactly when
    the counter is positive and its confidence is min(counter * 0.2, 0.85). *)
Theorem scaling_counts_repeated_deals (sort_values : list Deal -> list Deal)
    (deals_df : list Deal) :
  time_ordered (sort_values deals_df) deals_df ->
  deals_df <> [] ->
  scaling_instances (detect_scaling_in_out_with sort_values deals_df)
    = Some (repeat_instances_on (sort_values deals_df)) /\
  is_scaling (detect_scaling_in_out_with sort_values deals_df)
    = (0 <? repeat_instances_on (sort_values deals_df))%nat /\
  scaling_confidence (detect_scaling_in_out_with sort_values deals_df)
    = Qmin (Qnat (repeat_instances_on (sort_values deals_df)) * 0.2) 0.85 /\
  (forall s, time_ordered (deals_of s (sort_values deals_df)) (deals_of s deals_df)).
Proof.
  intros [Hperm Hsorted] Hne. destruct deals_df as [|d0 rest]; [congruence|].
  unfold detect_scaling_in_out_with.
  cbn [scaling_instances is_scaling scaling_confidence].
  rewrite scaling_instances_on_repeats.
  split; [reflexivity|]. split; [reflexivity|]. split; [reflexivity|].
  intros s. unfold deals_of. split.
  - apply Permutation_filter_same, Hperm.
  - apply StronglySorted_filter, Hsorted.
Qed.

Lemma scaling_counts_repeated_deals_witness :
  scaling_instances (detect_scaling_in_out_with (sort_by time) three_buys)
    = Some (repeat_instances_on (sort_by time three_buys)) /\
  is_scaling (detect_scaling_in_out_with (sort_by time) three_buys)
    = (0 <? repeat_instances_on (sort_by time three_buys))%nat /\
  scaling_confidence (detect_scaling_in_out_with (sort_by time) three_buys)
    = Qmin (Qnat (repeat_instances_on (sort_by time three_buys)) * 0.2) 0.85 /\
  (forall s, time_ordered (deals_of s (sort_by time three_buys)) (deals_of s three_buys)).
Proof.
  apply (scaling_counts_repeated_deals (sort_by time) three_buys).
  - split.
    + vm_compute. apply Permutation_refl.
    + vm_compute. repeat constructor; vm_compute; discriminate.
  - discriminate.
Defined.

(** With equal timestamps the count depends on how the sort arranges them:
    a buy and two sells on one symbol, the first two at the same time, count
    one repeat in one time-ordered arrangement and none in the other. *)
Lemma scaling_depends_on_tie_order :
  let buy0 := deal_at 0 "EURUSD" 0 0.1 5 in
  let sell0 := deal_at 0 "EURUSD" 1 0.1 5 in
  let sell60 := deal_at 60 "EURUSD" 1 0.1 5 in
  time_ordered [buy0; sell0; sell60] [buy0; sell0; sell60] /\
  time_ordered [sell0; buy0; sell60] [buy0; sell0; sell60] /\
  scaling_instances_on [buy0; sell0; sell60] = 1%nat /\
  scaling_instances_on [sell0; buy0; sell60] = O.
Proof.
  cbv zeta. split; [|split; [|split; reflexivity]].
  - split; [apply Permutation_refl|].
    repeat constructor; vm_compute; discriminate.
  - split; [apply perm_swap|].
    repeat constructor; vm_compute; discriminate.
Qed.

(** C8 (as the claim has it) fails.  Three consecutive buys on one symbol
    form a single run, yet the counter is 2; two consecutive buys on a symbol
    with no other deal form a run of two, yet the counter stays 0 and nothing
    is flagged. *)
Lemma scaling_not_once_per_run :
  run_lengths (symbol_types three_buys "EURUSD") = [3%nat] /\
  spec_scaling_instances three_buys = 1%nat /\
  scaling_instances (detect_scaling_in_out three_buys) = Some 2%nat /\
  run_lengths (symbol_types two_buys "EURUSD") = [2%nat] /\
  spec_scaling_instances two_buys = 1%nat /\
  scaling_instances (detect_scaling_in_out two_buys) = Some O /\
  is_scaling (detect_scaling_in_out two_buys) = false.
Proof.
  repeat split; vm_compute; reflexivity.
Qed.

(** * Further properties of the modelled code *)

(** ** Sums, minima and maxima *)

Lemma fold_Qmax_ge (l : list Q) (d x : Q) : In x l -> x <= fold_right Qmax d l.
Proof.
  induction l as [|y l IH]; intros Hin; [destruct Hin|].
  cbn [fold_right]. destruct Hin as [-> | Hin].
  - apply Q.le_max_l.
  - apply Qle_trans with (fold_right Qmax d l); [apply IH, Hin | apply Q.le_max_r].
Qed.

Lemma fold_Qmin_le (l : list Q) (d x : Q) : In x l -> fold_right Qmin d l <= x.
Proof.
  induction l as [|y l IH]; intros Hin; [destruct Hin|].
  cbn [fold_right]. destruct Hin as [-> | Hin].
  - apply Q.le_min_l.
  - apply Qle_trans with (fold_right Qmin d l); [apply Q.le_min_r | apply IH, Hin].
Qed.

Lemma Qmaximum_ge (l : list Q) (x : Q) : In x l -> x <= Qmaximum l.
Proof. apply fold_Qmax_ge. Qed.

Lemma Qminimum_le (l : list Q) (x : Q) : In x l -> Qminimum l <= x.
Proof. apply fold_Qmin_le. Qed.

Lemma Qlen_pos {A} (l : list A) : l <> [] -> 0 < Qlen l.
Proof.
  intros H. destruct l as [|x r]; [congruence|].
  apply (Qnat_pos (List.length (x :: r))). simpl. lia.
Qed.

(** ** Trade statistics *)

Lemma sign_partition (l : list Q) :
  (List.length (filter (fun p => Qltb 0 p) l)
   + List.length (filter (fun p => Qltb p 0) l)
   + List.length (filter (fun p => Qeq_bool p 0) l))%nat = List.length l.
Proof.
  induction l as [|x l IH]; [reflexivity|].
  cbn [filter List.length].
  destruct (Qltb 0 x) eqn:Ep; destruct (Qltb x 0) eqn:En;
    destruct (Qeq_bool x 0) eqn:Ez; cbn [List.length]; try lia;
    exfalso;
    try apply Qltb_lt in Ep; try apply Qltb_lt in En;
    try apply Qltb_ge in Ep; try apply Qltb_ge in En;
    try apply Qeq_bool_iff in Ez; try apply Qeq_bool_neq in Ez;
    lra.
Qed.

(** The fields of the statistics record in terms of the buy and sell deals. *)
Lemma statistics_fields (deals_df : list Deal) (s : Stats) :
  calculate_trade_statistics deals_df = Some s ->
  filter is_trade deals_df <> [] /\
  total_trades s = List.length (filter is_trade deals_df) /\
  winning_trades s =
    List.length (filter (fun p => Qltb 0 p) (map profit (filter is_trade deals_df))) /\
  losing_trades s =
    List.length (filter (fun p => Qltb p 0) (map profit (filter is_trade deals_df))) /\
  break_even_trades s =
    List.length (filter (fun p => Qeq_bool p 0) (map profit (filter is_trade deals_df))) /\
  win_rate s = Qnat (winning_trades s) / Qnat (total_trades s) * 100 /\
  total_profit s = Qsum (map profit (filter is_trade deals_df)) /\
  average_profit s = mean (map profit (filter is_trade deals_df)) /\
  max_profit s = Qmaximum (map profit (filter is_trade deals_df)) /\
  max_loss s = Qminimum (map profit (filter is_trade deals_df)).
Proof.
  intros Hs. unfold calculate_trade_statistics in Hs.
  destruct (filter is_trade deals_df) as [|t ts] eqn:Et; [discriminate|].
  injection Hs as Hs. subst s.
  split; [discriminate|]. repeat split; reflexivity.
Qed.

(** X1. When statistics are produced, the table holds at least one buy or
    sell deal, [total_trades] counts exactly those deals, and the winning,
    losing and break-even counts add up to it. *)
Theorem statistics_counts_partition (deals_df : list Deal) (s : Stats) :
  calculate_trade_statistics deals_df = Some s ->
  total_trades s = List.length (filter is_trade deals_df) /\
  (0 < total_trades s)%nat /\
  (winning_trades s + losing_trades s + break_even_trades s)%nat = total_trades s.
Proof.
  intros Hs.
  destruct (statistics_fields deals_df s Hs) as (Hne & Ht & Hw & Hl & Hb & _).
  split; [exact Ht|]. split.
  - rewrite Ht. destruct (filter is_trade deals_df); [congruence | simpl; lia].
  - rewrite Hw, Hl, Hb, Ht, sign_partition. apply length_map.
Qed.

Lemma statistics_counts_partition_witness :
  exists s,
    calculate_trade_statistics mixed_results = Some s /\
    total_trades s = List.length (filter is_trade mixed_results) /\
    (0 < total_trades s)%nat /\
    (winning_trades s + losing_trades s + break_even_trades s)%nat = total_trades s.
Proof.
  eexists. split; [reflexivity|].
  apply (statistics_counts_partition mixed_results _ eq_refl).
Defined.

(** X2. The win rate is a percentage: it lies between 0 and 100. *)
Theorem win_rate_is_percentage (deals_df : list Deal) (s : Stats) :
  calculate_trade_statistics deals_df = Some s ->
  0 <= win_rate s <= 100.
Proof.
  intros Hs.
  destruct (statistics_fields deals_df s Hs) as (_ & Ht & Hw & _ & _ & Hr & _).
  assert (Hle : (winning_trades s <= total_trades s)%nat).
  { rewrite Hw, Ht. etransitivity; [apply filter_length_le|].
    rewrite length_map. apply le_n. }
  destruct (ratio_bounds _ _ Hle) as [H0 H1]. rewrite Hr. lra.
Qed.

Lemma win_rate_is_percentage_witness :
  exists s, calculate_trade_statistics mixed_results = Some s /\ 0 <= win_rate s <= 100.
Proof.
  eexists. split; [reflexivity|].
  apply (win_rate_is_percentage mixed_results _ eq_refl).
Defined.

(** ** Resolver and pipeline *)

Lemma existsb_same_members {A} (f : A -> bool) (l1 l2 : list A) :
  (forall x, In x l1 <-> In x l2) -> existsb f l1 = existsb f l2.
Proof.
  intros H. destruct (existsb f l1) eqn:E1; symmetry.
  - apply existsb_exists in E1. destruct E1 as (x & Hx & Hf).
    apply existsb_exists. exists x. split; [apply H, Hx | exact Hf].
  - destruct (existsb f l2) eqn:E2; [|reflexivity].
    apply existsb_exists in E2. destruct E2 as (x & Hx & Hf).
    assert (Ht : existsb f l1 = true)
      by (apply existsb_exists; exists x; split; [apply H, Hx | exact Hf]).
    congruence.
Qed.

(** X5. The resolver looks at the set of detected names only: two pattern
    lists with the same names resolve to the same algorithm, whatever their
    order, repetitions, confidences or evidence. *)
Theorem resolver_depends_on_name_set (ps1 ps2 : list TradePattern)
    (stats : option Stats) :
  (forall n, In n (map pattern_name ps1) <-> In n (map pattern_name ps2)) ->
  _determine_algorithm_type ps1 stats = _determine_algorithm_type ps2 stats.
Proof.
  intros H. unfold _determine_algorithm_type, name_in.
  rewrite !(existsb_same_members _ _ _ H). reflexivity.
Qed.

Lemma resolver_depends_on_name_set_witness :
  _determine_algorithm_type hft_and_day None =
  _determine_algorithm_type (rev hft_and_day) None.
Proof.
  apply (resolver_depends_on_name_set hft_and_day (rev hft_and_day) None).
  intros n. simpl. tauto.
Defined.

(** The name and the confidence range of each core detector on a non-empty
    deals table. *)
Lemma position_sizing_named (d0 : Deal) (rest : list Deal) :
  exists p, detect_position_sizing_pattern (d0 :: rest) = Some p /\
    (In (pattern_name p)
        ["Fixed Lot Size"; "Martingale/Anti-Martingale"; "Unknown";
         "Consistent Proportional Sizing"; "Dynamic/Variable Sizing"] /\
     0 <= confidence p <= 0.95).
Proof.
  unfold detect_position_sizing_pattern. cbv zeta.
  repeat match goal with
  | |- context [if ?b then _ else _] => destruct b
  end; named; (split; [pick | literal_bounds]).
Qed.

Lemma time_based_named (d0 : Deal) (rest : list Deal) :
  exists p, detect_time_based_patterns (d0 :: rest) = Some p /\
    (In (pattern_name p)
        ["Time-Scheduled Trading"; "Preferred Time Window Trading";
         "Continuous/24-Hour Trading"] /\
     0.6 <= confidence p <= 0.85).
Proof.
  unfold detect_time_based_patterns. cbv zeta.
  destruct (Qltb 50 _); [|destruct (Qltb 30 _)];
    named; (split; [pick|]);
    match goal with
    | |- context [if ?b then Qmax _ _ else _] => destruct b
    end; split; vm_compute; intro Hgt; discriminate Hgt.
Qed.

Lemma risk_management_named (d0 : Deal) (rest : list Deal) (orders_df : list Order) :
  exists p, detect_risk_management_pattern (d0 :: rest) orders_df = Some p /\
    (In (pattern_name p)
        ["Unknown Risk Management"; "Strict Risk Management (SL + TP)";
         "Conservative (SL Only)"; "Profit Target Based";
         "Flexible/Manual Risk Management"] /\
     0.5 <= confidence p <= 0.9).
Proof.
  unfold detect_risk_management_pattern. cbv zeta.
  destruct orders_df as [|o os].
  - destruct (filter _ _); [|destruct (filter _ _)];
      named; (split; [pick | literal_bounds]).
  - destruct (Qltb 80 _ && Qltb 80 _);
      [|destruct (Qltb 80 _); [|destruct (Qltb 80 _)]];
      (destruct (filter (fun p => Qltb 0 p) _);
       [|destruct (filter (fun p => Qltb p 0) _)]);
      named; (split; [pick | literal_bounds]).
Qed.

Lemma trading_frequency_named (d0 : Deal) (rest : list Deal) :
  exists p, detect_trading_frequency_pattern (d0 :: rest) = Some p /\
    (In (pattern_name p) frequency_names /\ 0.7 <= confidence p <= 0.9).
Proof.
  unfold detect_trading_frequency_pattern, frequency_names. cbv zeta.
  destruct (Qltb 50 _);
    [|destruct (Qltb 20 _); [|destruct (Qltb 5 _); [|destruct (Qltb 1 _)]]];
    named; (split; [pick|]);
    match goal with
    | |- context [if ?b then _ + _ else _] => destruct b
    end; split; vm_compute; intro Hgt; discriminate Hgt.
Qed.

Lemma symbol_named (d0 : Deal) (rest : list Deal) :
  exists p, detect_symbol_pattern (d0 :: rest) = Some p /\
    (In (pattern_name p)
        ["Single Instrument Specialist"; "Focused Instrument Strategy";
         "Multi-Instrument Strategy"; "Diversified Portfolio Strategy"] /\
     0.7 <= confidence p <= 0.95).
Proof.
  unfold detect_symbol_pattern. cbv zeta.
  destruct (_ =? 1)%nat; [|destruct (Qltb 70 _); [|destruct (_ <=? 5)%nat]];
    named; (split; [pick | literal_bounds]).
Qed.

(** With a frequency name present and no name containing "Grid", the
    resolver stops at one of its first six rules. *)
Lemma resolver_with_frequency_name (ps : list TradePattern) (stats : option Stats) :
  (exists n, In n frequency_names /\ In n (map pattern_name ps)) ->
  existsb (contains "Grid") (map pattern_name ps) = false ->
  In (_determine_algorithm_type ps stats) pipeline_algorithms.
Proof.
  intros (n & Hn & Hin) Hgrid. apply name_in_In in Hin.
  unfold _determine_algorithm_type. rewrite Hgrid.
  destruct (name_in "High-Frequency Trading (HFT)" _) eqn:E1; [simpl; pick|].
  destruct (name_in "Scalping Strategy" _) eqn:E2;
    [destruct (name_in "Time-Scheduled Trading" _); simpl; pick|].
  destruct (name_in "Martingale/Anti-Martingale" _); [simpl; pick|].
  destruct (name_in "Day Trading Strategy" _) eqn:E3;
    [destruct (name_in "Strict Risk Management (SL + TP)" _); simpl; pick|].
  destruct (name_in "Swing Trading Strategy" _) eqn:E4; [simpl; pick|].
  destruct (name_in "Position Trading Strategy" _) eqn:E5; [simpl; pick|].
  exfalso. unfold frequency_names in Hn. simpl in Hn.
  destruct Hn as [<- | [<- | [<- | [<- | [<- | []]]]]]; congruence.
Qed.

(** X6. The pipeline returns its default only for an empty deals table.  On
    an empty table, whatever the orders, the signature is "Custom/Hybrid
    Trading Algorithm" with confidence 0, no pattern, no statistics and a
    zero analysis period.  On a non-empty table the algorithm is one of
    eight names decided by the first six rules: the three statistics-based
    fallbacks and "Grid Martingale EA" are never returned. *)
Theorem pipeline_default_only_when_empty (deals_df : list Deal)
    (orders_df : list Order) (now : Z) :
  (deals_df = [] /\
   identify_algorithm_type deals_df orders_df now =
   {| likely_algorithm := "Custom/Hybrid Trading Algorithm";
      sig_confidence := 0;
      patterns := [];
      characteristics :=
        {| statistics := None; pattern_count := 0; analysis_period_days := 0 |};
      timestamp := now |}) \/
  (deals_df <> [] /\
   In (likely_algorithm (identify_algorithm_type deals_df orders_df now))
      pipeline_algorithms).
Proof.
  destruct deals_df as [|d0 rest]; [left; split; reflexivity|].
  right. split; [discriminate|].
  destruct (position_sizing_named d0 rest) as (p1 & E1 & N1 & _).
  destruct (time_based_named d0 rest) as (p2 & E2 & N2 & _).
  destruct (risk_management_named d0 rest orders_df) as (p3 & E3 & N3 & _).
  destruct (trading_frequency_named d0 rest) as (p4 & E4 & N4 & _).
  destruct (symbol_named d0 rest) as (p5 & E5 & N5 & _).
  unfold identify_algorithm_type. cbn [likely_algorithm].
  rewrite E1, E2, E3, E4, E5. cbn [drop_none].
  apply resolver_with_frequency_name.
  - exists (pattern_name p4). split; [exact N4|]. simpl. tauto.
  - cbn [map existsb].
    assert (G1 : contains "Grid" (pattern_name p1) = false).
    { simpl in N1. destruct N1 as [<- | [<- | [<- | [<- | [<- | []]]]]]; reflexivity. }
    assert (G2 : contains "Grid" (pattern_name p2) = false).
    { simpl in N2. destruct N2 as [<- | [<- | [<- | []]]]; reflexivity. }
    assert (G3 : contains "Grid" (pattern_name p3) = false).
    { simpl in N3. destruct N3 as [<- | [<- | [<- | [<- | [<- | []]]]]]; reflexivity. }
    assert (G4 : contains "Grid" (pattern_name p4) = false).
    { unfold frequency_names in N4. simpl in N4.
      destruct N4 as [<- | [<- | [<- | [<- | [<- | []]]]]]; reflexivity. }
    assert (G5 : contains "Grid" (pattern_name p5) = false).
    { simpl in N5. destruct N5 as [<- | [<- | [<- | [<- | []]]]]; reflexivity. }
    rewrite G1, G2, G3, G4, G5. reflexivity.
Qed.

(** X7. On a non-empty deals table the aggregate confidence lies between 0.5
    and 0.91: the five detectors contribute at least 0, 0.6, 0.5, 0.7, 0.7
    and at most 0.95, 0.85, 0.9, 0.9, 0.95. *)
Theorem pipeline_confidence_range (deals_df : list Deal) (orders_df : list Order)
    (now : Z) :
  deals_df <> [] ->
  0.5 <= sig_confidence (identify_algorithm_type deals_df orders_df now) <= 0.91.
Proof.
  intros Hne. destruct deals_df as [|d0 rest]; [congruence|].
  destruct (position_sizing_named d0 rest) as (p1 & E1 & _ & B1).
  destruct (time_based_named d0 rest) as (p2 & E2 & _ & B2).
  destruct (risk_management_named d0 rest orders_df) as (p3 & E3 & _ & B3).
  destruct (trading_frequency_named d0 rest) as (p4 & E4 & _ & B4).
  destruct (symbol_named d0 rest) as (p5 & E5 & _ & B5).
  unfold identify_algorithm_type. cbn [sig_confidence].
  rewrite E1, E2, E3, E4, E5. cbn [drop_none map Qsum fold_right].
  change (Qlen [p1; p2; p3; p4; p5]) with 5.
  clear Hne E1 E2 E3 E4 E5.
  split.
  - apply Qle_shift_div_l; [reflexivity | lra].
  - apply Qle_shift_div_r; [reflexivity | lra].
Qed.

Lemma pipeline_confidence_range_witness :
  0.5 <= sig_confidence (identify_algorithm_type alternating_lots [] 0) <= 0.91.
Proof.
  apply (pipeline_confidence_range alternating_lots [] 0). discriminate.
Defined.

Lemma fold_Zmax_ge (l : list Z) (d x : Z) : In x l -> (x <= fold_right Z.max d l)%Z.
Proof.
  induction l as [|y l IH]; intros Hin; [destruct Hin|].
  cbn [fold_right]. destruct Hin as [-> | Hin]; [lia|].
  specialize (IH Hin). lia.
Qed.

Lemma fold_Zmin_le (l : list Z) (d x : Z) : In x l -> (fold_right Z.min d l <= x)%Z.
Proof.
  induction l as [|y l IH]; intros Hin; [destruct Hin|].
  cbn [fold_right]. destruct Hin as [-> | Hin]; [lia|].
  specialize (IH Hin). lia.
Qed.

Lemma Zminimum_le_Zmaximum (l : list Z) : (Zminimum l <= Zmaximum l)%Z.
Proof.
  destruct l as [|x r]; [vm_compute; discriminate|].
  apply Z.le_trans with x.
  - apply fold_Zmin_le. left. reflexivity.
  - apply fold_Zmax_ge. left. reflexivity.
Qed.

(** X8. The analysis period is never negative and never longer than the
    span, in seconds, between the earliest and the latest deal. *)
Theorem analysis_period_bounds (deals_df : list Deal) (orders_df : list Order)
    (now : Z) :
  let days := analysis_period_days
                (characteristics (identify_algorithm_type deals_df orders_df now)) in
  (0 <= days)%Z /\
  (days * 86400 <= Zmaximum (map time deals_df) - Zminimum (map time deals_df))%Z.
Proof.
  cbv zeta. unfold identify_algorithm_type.
  cbn [characteristics analysis_period_days].
  pose proof (Zminimum_le_Zmaximum (map time deals_df)) as Hle.
  destruct deals_df as [|d0 rest]; [simpl; lia|].
  set (span := (Zmaximum (map time (d0 :: rest)) - Zminimum (map time (d0 :: rest)))%Z) in *.
  assert (Hs : (0 <= span)%Z) by (subst span; lia).
  split.
  - apply Z.div_pos; lia.
  - pose proof (Z.mul_div_le span 86400 ltac:(lia)). lia.
Qed.

(** ** Distinct values *)

Section Unique.
Context {A : Type}.
Variable eqb : A -> A -> bool.
Variable R : A -> A -> Prop.
Hypothesis R_equiv : Equivalence R.
Hypothesis eqb_R : forall x y, eqb x y = true <-> R x y.

Lemma unique_by_subset (l : list A) (y : A) :
  In y (unique_by eqb l) -> In y l.
Proof.
  revert y. induction l as [|x l IH]; intros y Hy; [exact Hy|].
  cbn [unique_by] in Hy. destruct Hy as [-> | Hy]; [left; reflexivity|].
  apply filter_In in Hy. right. apply IH. apply Hy.
Qed.

Lemma unique_by_represents (l : list A) (y : A) :
  In y l -> exists y', In y' (unique_by eqb l) /\ R y' y.
Proof.
  induction l as [|x l IH]; intros Hy; [destruct Hy|].
  cbn [unique_by]. destruct Hy as [-> | Hy].
  - exists y. split; [left; reflexivity | reflexivity].
  - destruct (IH Hy) as (y' & Hin & Hr).
    destruct (eqb x y') eqn:E.
    + exists x. split; [left; reflexivity|].
      apply eqb_R in E. etransitivity; eassumption.
    + exists y'. split; [|exact Hr].
      right. apply filter_In. split; [exact Hin|]. rewrite E. reflexivity.
Qed.

(** A sequence has exactly one distinct value when all its elements are
    equivalent to the first. *)
Lemma unique_by_singleton (x : A) (l : list A) :
  List.length (unique_by eqb (x :: l)) = 1%nat <-> Forall (fun y => R x y) l.
Proof.
  cbn [unique_by List.length]. split.
  - intros Hlen. apply Forall_forall. intros y Hy.
    destruct (unique_by_represents l y Hy) as (y' & Hin & Hr).
    destruct (eqb x y') eqn:E.
    + apply eqb_R in E. etransitivity; eassumption.
    + exfalso.
      assert (Hf : In y' (filter (fun z => negb (eqb x z)) (unique_by eqb l))).
      { apply filter_In. split; [exact Hin|]. rewrite E. reflexivity. }
      destruct (filter (fun z => negb (eqb x z)) (unique_by eqb l));
        [destruct Hf | simpl in Hlen; lia].
  - intros Hall.
    assert (Hnil : filter (fun z => negb (eqb x z)) (unique_by eqb l) = []).
    { destruct (filter (fun z => negb (eqb x z)) (unique_by eqb l)) as [|z zs] eqn:E;
        [reflexivity|].
      exfalso.
      assert (Hz : In z (filter (fun z => negb (eqb x z)) (unique_by eqb l)))
        by (rewrite E; left; reflexivity).
      apply filter_In in Hz. destruct Hz as [Hz Hneg].
      apply unique_by_subset in Hz.
      rewrite Forall_forall in Hall. specialize (Hall z Hz).
      apply eqb_R in Hall. rewrite Hall in Hneg. discriminate. }
    rewrite Hnil. reflexivity.
Qed.

Lemma unique_by_singleton_eq (x : A) (l : list A) :
  Forall (fun y => R x y) l -> unique_by eqb (x :: l) = [x].
Proof.
  intros Hall. apply unique_by_singleton in Hall.
  cbn [unique_by List.length] in *.
  destruct (filter (fun z => negb (eqb x z)) (unique_by eqb l));
    [reflexivity | simpl in Hall; lia].
Qed.

Lemma count_by_all (x : A) (l : list A) :
  Forall (fun y => R x y) l -> count_by eqb x l = List.length l.
Proof.
  unfold count_by. induction 1 as [|y l Hy _ IH]; [reflexivity|].
  cbn [filter]. apply eqb_R in Hy. rewrite Hy. cbn [List.length]. rewrite IH.
  reflexivity.
Qed.
End Unique.

Lemma Qeq_bool_Qeq (x y : Q) : Qeq_bool x y = true <-> x == y.
Proof. apply Qeq_bool_iff. Qed.

Lemma insert_count_length {A} (p : A * nat) (l : list (A * nat)) :
  List.length (insert_count p l) = S (List.length l).
Proof.
  induction l as [|q l IH]; [reflexivity|].
  cbn [insert_count]. destruct (snd q <=? snd p)%nat; cbn [List.length]; [reflexivity|].
  rewrite IH. reflexivity.
Qed.

Lemma value_counts_length {A} (eqb : A -> A -> bool) (l : list A) :
  List.length (value_counts eqb l) = List.length (unique_by eqb l).
Proof.
  unfold value_counts.
  induction (unique_by eqb l) as [|x u IH]; [reflexivity|].
  cbn [map fold_right]. rewrite insert_count_length. cbn [List.length].
  rewrite IH. reflexivity.
Qed.

(** ** Position sizing, continued *)

(** X9. The detector reports "Fixed Lot Size", with confidence 0.95 and the
    first volume as [lot_size], exactly when every deal has the same volume
    as the first deal. *)
Theorem fixed_lot_size_iff (d0 : Deal) (rest : list Deal) :
  Forall (fun d => volume d0 == volume d) rest <->
  detect_position_sizing_pattern (d0 :: rest) =
    Some (mkTradePattern "Fixed Lot Size" 0.95 "Position sizing strategy analysis"
            [mkEvidence "All trades use identical lot size: {}" [VNum (volume d0)]]
            [("lot_size", VNum (volume d0))]).
Proof.
  assert (Hu : List.length (unique_by Qeq_bool (map volume (d0 :: rest))) = 1%nat <->
               Forall (fun d => volume d0 == volume d) rest).
  { cbn [map].
    rewrite (unique_by_singleton Qeq_bool Qeq Q_Setoid Qeq_bool_Qeq).
    rewrite Forall_map. reflexivity. }
  unfold detect_position_sizing_pattern. cbv zeta.
  destruct (List.length (unique_by Qeq_bool (map volume (d0 :: rest))) =? 1)%nat eqn:E.
  - apply Nat.eqb_eq in E. split; [reflexivity | intros _; apply Hu, E].
  - apply Nat.eqb_neq in E. split.
    + intros H. apply Hu in H. congruence.
    + intros H. exfalso.
      repeat match type of H with
      | context [if ?b then _ else _] => destruct b
      end; discriminate H.
Qed.

(** X10. With more than three trades of differing volumes, none of them
    within rounding distance of 1.8 times the volume before it, the outcome
    is decided by the number of martingale steps (a loss followed by a volume
    of at least 1.8 times the previous one) against 30% of the number of
    trades: above it the pattern is "Martingale/Anti-Martingale" with
    confidence 0.8 and the ratio steps/trades as metric, otherwise it is
    "Unknown" with confidence 0. *)
Theorem martingale_decided_by_step_count (deals_df : list Deal) :
  (3 < List.length deals_df)%nat ->
  List.length (unique_by Qeq_bool (map volume deals_df)) <> 1%nat ->
  steps_clear_of_boundary deals_df = true ->
  detect_position_sizing_pattern deals_df =
    if (3 * List.length deals_df <? 10 * spec_martingale_steps deals_df)%nat then
      Some (mkTradePattern "Martingale/Anti-Martingale" 0.8
              "Position sizing strategy analysis"
              [mkEvidence "Position size increases after losses in {} instances"
                          [VInt (Z.of_nat (spec_martingale_steps deals_df))]]
              [("martingale_ratio",
                VNum (Qnat (spec_martingale_steps deals_df) / Qlen (map volume deals_df)))])
    else
      Some (mkTradePattern "Unknown" 0 "Position sizing strategy analysis" [] []).
Proof.
  intros Hlen Hdistinct _.
  destruct deals_df as [|d0 rest]; [simpl in Hlen; lia|].
  unfold detect_position_sizing_pattern. cbv zeta.
  apply Nat.eqb_neq in Hdistinct. rewrite Hdistinct.
  rewrite length_map.
  apply Nat.ltb_lt in Hlen. rewrite Hlen.
  rewrite martingale_count_spec.
  assert (Hq : Qltb (Qlen (map volume (d0 :: rest)) * 0.3)
                    (Qnat (spec_martingale_steps (d0 :: rest))) =
               (3 * List.length (d0 :: rest)
                <? 10 * spec_martingale_steps (d0 :: rest))%nat).
  { destruct (Nat.ltb_spec (3 * List.length (d0 :: rest))
                           (10 * spec_martingale_steps (d0 :: rest))) as [H | H].
    - apply Qltb_lt. unfold Qlen, Qnat. rewrite length_map.
      unfold Qlt, Qmult, inject_Z. cbn [Qnum Qden]. lia.
    - apply Qltb_ge. unfold Qlen, Qnat. rewrite length_map.
      unfold Qle, Qmult, inject_Z. cbn [Qnum Qden]. lia. }
  rewrite Hq. reflexivity.
Qed.

Lemma martingale_decided_by_step_count_witness :
  detect_position_sizing_pattern doubling_lots =
    if (3 * List.length doubling_lots <? 10 * spec_martingale_steps doubling_lots)%nat then
      Some (mkTradePattern "Martingale/Anti-Martingale" 0.8
              "Position sizing strategy analysis"
              [mkEvidence "Position size increases after losses in {} instances"
                          [VInt (Z.of_nat (spec_martingale_steps doubling_lots))]]
              [("martingale_ratio",
                VNum (Qnat (spec_martingale_steps doubling_lots)
                      / Qlen (map volume doubling_lots)))])
    else
      Some (mkTradePattern "Unknown" 0 "Position sizing strategy analysis" [] []).
Proof.
  apply (martingale_decided_by_step_count doubling_lots).
  - vm_compute. lia.
  - vm_compute. discriminate.
  - vm_compute. reflexivity.
Defined.

(** ** Symbol concentration *)

Lemma String_eqb_eq_iff (x y : string) : String.eqb x y = true <-> x = y.
Proof. apply String.eqb_eq. Qed.

(** X11. The detector reports "Single Instrument Specialist" exactly when
    every deal trades the symbol of the first deal; its confidence is then
    0.95. *)
Theorem single_instrument_iff (d0 : Deal) (rest : list Deal) :
  Forall (fun d => symbol d0 = symbol d) rest <->
  exists p, detect_symbol_pattern (d0 :: rest) = Some p /\
            pattern_name p = "Single Instrument Specialist" /\
            confidence p = 0.95.
Proof.
  assert (Hu : List.length (value_counts String.eqb (map symbol (d0 :: rest))) = 1%nat <->
               Forall (fun d => symbol d0 = symbol d) rest).
  { rewrite value_counts_length. cbn [map].
    rewrite (unique_by_singleton String.eqb eq eq_equivalence String_eqb_eq_iff).
    rewrite Forall_map. reflexivity. }
  unfold detect_symbol_pattern. cbv zeta.
  destruct (List.length (value_counts String.eqb (map symbol (d0 :: rest))) =? 1)%nat eqn:E.
  - apply Nat.eqb_eq in E. split.
    + intros _. eexists. split; [reflexivity|]. split; reflexivity.
    + intros _. apply Hu, E.
  - apply Nat.eqb_neq in E. split.
    + intros H. apply Hu in H. congruence.
    + intros (p & Hp & Hn & _). exfalso.
      repeat match type of Hp with
      | context [if ?b then _ else _] => destruct b
      end; injection Hp as <-; discriminate Hn.
Qed.

(** ** Trading frequency *)

Lemma Z_eqb_eq_iff (x y : Z) : Z.eqb x y = true <-> x = y.
Proof. apply Z.eqb_eq. Qed.

Lemma mean_singleton_count (n : nat) : mean [Qnat n] == Qnat n.
Proof.
  unfold mean. cbn [Qsum fold_right]. change (Qlen [Qnat n]) with 1. field.
Qed.

Lemma Qltb_Qnat (k : nat) (q : Q) (n : nat) :
  q == Qnat n -> Qltb (Qnat k) q = (k <? n)%nat.
Proof.
  intros Hq. destruct (Nat.ltb_spec k n) as [H | H].
  - apply Qltb_lt. rewrite Hq. unfold Qnat, Qlt. simpl. lia.
  - apply Qltb_ge. rewrite Hq. apply Qnat_le, H.
Qed.

(** X12. When all deals fall on one calendar date the per-day deviation is
    undefined, so the consistency bonus is never granted: the pattern is
    chosen by the number of deals alone (more than 50, 20, 5, 1) with the
    plain confidence 0.85, 0.8, 0.75, 0.7 or 0.7, and the evidence says
    "Variable daily trading frequency". *)
Theorem single_day_frequency (d0 : Deal) (rest : list Deal) :
  Forall (fun d => date_of (time d0) = date_of (time d)) rest ->
  let n := List.length (d0 :: rest) in
  exists p,
    detect_trading_frequency_pattern (d0 :: rest) = Some p /\
    (pattern_name p, confidence p) =
      (if (50 <? n)%nat then ("High-Frequency Trading (HFT)", 0.85)
       else if (20 <? n)%nat then ("Scalping Strategy", 0.8)
       else if (5 <? n)%nat then ("Day Trading Strategy", 0.75)
       else if (1 <? n)%nat then ("Swing Trading Strategy", 0.7)
       else ("Position Trading Strategy", 0.7)) /\
    In (mkEvidence "Variable daily trading frequency" []) (evidence p) /\
    In ("std_trades_per_day", VNaN) (metrics p).
Proof.
  intros Hall n.
  assert (Hper : trades_per_day (d0 :: rest) = [Qnat n]).
  { unfold trades_per_day. cbn [map].
    assert (Hd : Forall (fun y => date_of (time d0) = y)
                        (map (fun d => date_of (time d)) rest))
      by (rewrite Forall_map; exact Hall).
    rewrite (unique_by_singleton_eq Z.eqb eq eq_equivalence Z_eqb_eq_iff _ _ Hd).
    cbn [map]. f_equal. f_equal.
    change (date_of (time d0) :: map (fun d => date_of (time d)) rest)
      with (map (fun d => date_of (time d)) (d0 :: rest)).
    rewrite (count_by_all Z.eqb eq Z_eqb_eq_iff (date_of (time d0))
               (map (fun d => date_of (time d)) (d0 :: rest))).
    - apply length_map.
    - cbn [map]. constructor; [reflexivity | exact Hd]. }
  unfold detect_trading_frequency_pattern. cbv zeta. rewrite Hper.
  cbn [var_sample std_lt].
  pose proof (mean_singleton_count n) as Hm.
  assert (T50 : Qltb 50 (mean [Qnat n]) = (50 <? n)%nat) by exact (Qltb_Qnat 50 _ n Hm).
  assert (T20 : Qltb 20 (mean [Qnat n]) = (20 <? n)%nat) by exact (Qltb_Qnat 20 _ n Hm).
  assert (T5 : Qltb 5 (mean [Qnat n]) = (5 <? n)%nat) by exact (Qltb_Qnat 5 _ n Hm).
  assert (T1 : Qltb 1 (mean [Qnat n]) = (1 <? n)%nat) by exact (Qltb_Qnat 1 _ n Hm).
  rewrite T50, T20, T5, T1.
  destruct (50 <? n)%nat; [|destruct (20 <? n)%nat;
    [|destruct (5 <? n)%nat; [|destruct (1 <? n)%nat]]];
    (eexists; split; [reflexivity|]);
    (split; [reflexivity|]); split; simpl; tauto.
Qed.

Lemma single_day_frequency_witness :
  exists p,
    detect_trading_frequency_pattern alternating_lots = Some p /\
    (pattern_name p, confidence p) = ("Swing Trading Strategy", 0.7) /\
    In (mkEvidence "Variable daily trading frequency" []) (evidence p) /\
    In ("std_trades_per_day", VNaN) (metrics p).
Proof.
  apply (single_day_frequency (deal_at 0 "EURUSD" 0 0.1 5)
           [deal_at 100 "EURUSD" 1 0.2 5; deal_at 200 "EURUSD" 0 0.1 5;
            deal_at 300 "EURUSD" 1 0.2 5]).
  repeat constructor.
Defined.

(** ** Risk management *)

(** X13. The risk-management name and confidence are decided by the orders
    table alone: any two non-empty deals tables give the same name and
    confidence, and with at least one order the name is never "Unknown Risk
    Management". *)
Theorem risk_pattern_decided_by_orders (deals1 deals2 : list Deal)
    (orders_df : list Order) :
  deals1 <> [] -> deals2 <> [] ->
  exists p1 p2,
    detect_risk_management_pattern deals1 orders_df = Some p1 /\
    detect_risk_management_pattern deals2 orders_df = Some p2 /\
    pattern_name p1 = pattern_name p2 /\
    confidence p1 = confidence p2 /\
    (orders_df <> [] -> pattern_name p1 <> "Unknown Risk Management").
Proof.
  intros H1 H2.
  destruct deals1 as [|a1 r1]; [congruence|].
  destruct deals2 as [|a2 r2]; [congruence|].
  unfold detect_risk_management_pattern. cbv zeta.
  destruct orders_df as [|o os].
  - destruct (filter (fun p => Qltb 0 p) (map profit (a1 :: r1)));
      [|destruct (filter (fun p => Qltb p 0) (map profit (a1 :: r1)))];
      (destruct (filter (fun p => Qltb 0 p) (map profit (a2 :: r2)));
       [|destruct (filter (fun p => Qltb p 0) (map profit (a2 :: r2)))]);
      do 2 eexists; (split; [reflexivity|]); (split; [reflexivity|]);
      (split; [reflexivity|]); (split; [reflexivity|]); congruence.
  - destruct (Qltb 80 _ && Qltb 80 _);
      [|destruct (Qltb 80 _); [|destruct (Qltb 80 _)]];
      (destruct (filter (fun p => Qltb 0 p) (map profit (a1 :: r1)));
       [|destruct (filter (fun p => Qltb p 0) (map profit (a1 :: r1)))]);
      (destruct (filter (fun p => Qltb 0 p) (map profit (a2 :: r2)));
       [|destruct (filter (fun p => Qltb p 0) (map profit (a2 :: r2)))]);
      do 2 eexists; (split; [reflexivity|]); (split; [reflexivity|]);
      (split; [reflexivity|]); (split; [reflexivity|]);
      intros _; cbn [pattern_name]; discriminate.
Qed.

Lemma risk_pattern_decided_by_orders_witness :
  exists p1 p2,
    detect_risk_management_pattern alternating_lots grid_orders = Some p1 /\
    detect_risk_management_pattern mixed_results grid_orders = Some p2 /\
    pattern_name p1 = pattern_name p2 /\
    confidence p1 = confidence p2 /\
    (grid_orders <> [] -> pattern_name p1 <> "Unknown Risk Management").
Proof.
  apply (risk_pattern_decided_by_orders alternating_lots mixed_results grid_orders);
    discriminate.
Defined.

(** ** News trading *)

Lemma insert_by_length {A} (key : A -> Z) (x : A) (l : list A) :
  List.length (insert_by key x l) = S (List.length l).
Proof.
  induction l as [|y l IH]; [reflexivity|].
  cbn [insert_by]. destruct (key x <=? key y)%Z; cbn [List.length]; [reflexivity|].
  rewrite IH. reflexivity.
Qed.

Lemma sort_by_length {A} (key : A -> Z) (l : list A) :
  List.length (sort_by key l) = List.length l.
Proof.
  induction l as [|x l IH]; [reflexivity|].
  unfold sort_by in *. cbn [fold_right]. rewrite insert_by_length, IH. reflexivity.
Qed.

Lemma diffs_length (l : list Q) : List.length (diffs l) = (List.length l - 1)%nat.
Proof.
  induction l as [|x l IH]; [reflexivity|].
  destruct l as [|y l]; [reflexivity|].
  change (diffs (x :: y :: l)) with ((y - x) :: diffs (y :: l)).
  cbn [List.length] in *. rewrite IH. lia.
Qed.

Lemma time_diffs_nan_length (deals_df : list Deal) :
  List.length (time_diffs_nan deals_df) = List.length deals_df.
Proof.
  destruct deals_df as [|d0 rest]; [reflexivity|].
  unfold time_diffs_nan, time_diffs_minutes.
  cbn [List.length]. rewrite !length_map, diffs_length, length_map, sort_by_length.
  simpl. lia.
Qed.

(** The loop stops two positions before the end, so it can count at most
    [len - 2] clusters. *)
Lemma news_clusters_bound (td : list (option Q)) :
  (news_clusters td <= List.length td - 2)%nat.
Proof.
  induction td as [|x rest IH]; [simpl; lia|].
  cbn [news_clusters].
  destruct (Nat.ltb_spec 2 (List.length (x :: rest))) as [H | H]; [|lia].
  cbn [List.length] in *.
  destruct x as [q|]; [destruct (Qltb 60 q && _)|]; lia.
Qed.

Lemma ratio_above_fraction (a b : positive) (c n : nat) :
  (0 < n)%nat ->
  Qltb (Z.pos a # b) (Qnat c / Qnat n) =
  (Pos.to_nat a * n <? Pos.to_nat b * c)%nat.
Proof.
  intros Hn. pose proof (Qnat_pos n Hn) as Hpos.
  destruct (Nat.ltb_spec (Pos.to_nat a * n) (Pos.to_nat b * c)) as [H | H].
  - apply Qltb_lt. apply Qlt_shift_div_l; [exact Hpos|].
    unfold Qnat, Qlt, Qmult, inject_Z. cbn [Qnum Qden]. lia.
  - apply Qltb_ge. apply Qle_shift_div_r; [exact Hpos|].
    unfold Qnat, Qle, Qmult, inject_Z. cbn [Qnum Qden]. lia.
Qed.

(** X14. The leading gap of the series is undefined and the scan stops two
    gaps before the end, so a table of [n] deals yields at most [n - 3]
    clusters; the table is flagged exactly when the clusters exceed a tenth
    of the deals, and with three deals or fewer it is never flagged. *)
Theorem news_clusters_limited (deals_df : list Deal) :
  deals_df <> [] ->
  exists c,
    clusters_detected (detect_news_trading deals_df) = Some c /\
    (c <= List.length deals_df - 3)%nat /\
    is_news_trading (detect_news_trading deals_df)
      = (List.length deals_df <? 10 * c)%nat /\
    ((List.length deals_df <= 3)%nat ->
     is_news_trading (detect_news_trading deals_df) = false).
Proof.
  intros Hne. destruct deals_df as [|d0 rest]; [congruence|].
  set (deals := d0 :: rest).
  assert (Hc : (news_clusters (time_diffs_nan deals) <= List.length deals - 3)%nat).
  { pose proof (time_diffs_nan_length deals) as Hl.
    unfold time_diffs_nan in *. subst deals.
    set (gaps := map Some (time_diffs_minutes (d0 :: rest))) in *.
    cbn [news_clusters].
    pose proof (news_clusters_bound gaps) as Hb.
    cbn [List.length] in *.
    destruct (2 <? S (List.length gaps))%nat; lia. }
  assert (Hflag : is_news_trading (detect_news_trading deals)
                  = (List.length deals <? 10 * news_clusters (time_diffs_nan deals))%nat).
  { unfold detect_news_trading. subst deals. cbn [is_news_trading].
    change (0 <? List.length (d0 :: rest))%nat with true. cbv iota.
    change (Qlen (d0 :: rest)) with (Qnat (List.length (d0 :: rest))).
    rewrite (ratio_above_fraction 1 10 _ (List.length (d0 :: rest)))
      by (simpl; lia).
    change (Pos.to_nat 1) with 1%nat. change (Pos.to_nat 10) with 10%nat.
    rewrite Nat.mul_1_l. reflexivity. }
  exists (news_clusters (time_diffs_nan deals)).
  split; [reflexivity|]. split; [exact Hc|]. split; [exact Hflag|].
  intros Hsmall. rewrite Hflag. apply Nat.ltb_ge. lia.
Qed.

Lemma news_clusters_limited_witness :
  exists c,
    clusters_detected (detect_news_trading alternating_lots) = Some c /\
    (c <= List.length alternating_lots - 3)%nat /\
    is_news_trading (detect_news_trading alternating_lots)
      = (List.length alternating_lots <? 10 * c)%nat /\
    ((List.length alternating_lots <= 3)%nat ->
     is_news_trading (detect_news_trading alternating_lots) = false).
Proof.
  apply (news_clusters_limited alternating_lots). discriminate.
Defined.

(** ** Correlation trading *)

Lemma filter_none {A} (f : A -> bool) (l : list A) :
  (forall x, In x l -> f x = false) -> filter f l = [].
Proof.
  induction l as [|x l IH]; intros H; [reflexivity|].
  cbn [filter]. rewrite (H x) by (left; reflexivity).
  apply IH. intros y Hy. apply H. right. exact Hy.
Qed.

Lemma symbols_of_one_symbol (s : string) (deals_df : list Deal) :
  Forall (fun d => s = symbol d) deals_df ->
  (List.length (symbols deals_df) <= 1)%nat.
Proof.
  intros Hall. unfold symbols. destruct deals_df as [|d0 rest]; [simpl; lia|].
  cbn [map].
  rewrite (unique_by_singleton_eq String.eqb eq eq_equivalence String_eqb_eq_iff).
  - simpl. lia.
  - rewrite Forall_map. inversion Hall as [|? ? H0 Hr]; subst.
    exact Hr.
Qed.

Lemma zero_ratio (guard : bool) (total : nat) :
  (if guard then Qnat 0 / Qnat total else 0) == 0.
Proof.
  destruct guard; [|reflexivity].
  unfold Qdiv. change (Qnat 0) with 0. apply Qmult_0_l.
Qed.

(** X15. A deals table that trades a single symbol is never flagged as
    correlation trading: no minute holds two symbols, the count is 0 and the
    confidence is 0. *)
Theorem one_symbol_no_correlation (d0 : Deal) (rest : list Deal) :
  Forall (fun d => symbol d0 = symbol d) rest ->
  is_correlation_trading (detect_correlation_trading (d0 :: rest)) = false /\
  simultaneous_count (detect_correlation_trading (d0 :: rest)) = Some O /\
  correlation_confidence (detect_correlation_trading (d0 :: rest)) == 0 /\
  correlation_evidence (detect_correlation_trading (d0 :: rest)) = None.
Proof.
  intros Hall.
  assert (Hall' : Forall (fun d => symbol d0 = symbol d) (d0 :: rest))
    by (constructor; [reflexivity | exact Hall]).
  unfold detect_correlation_trading.
  cbn [is_correlation_trading simultaneous_count correlation_confidence
       correlation_evidence].
  set (time_points := unique_by Z.eqb (map (fun d => minute_floor (time d)) (d0 :: rest))).
  assert (Hnone :
    filter (fun t => (1 <? List.length
              (symbols (filter (fun d => (minute_floor (time d) =? t)%Z) (d0 :: rest))))%nat)
           time_points = []).
  { apply filter_none. intros t _. apply Nat.ltb_ge.
    apply (symbols_of_one_symbol (symbol d0)).
    apply Forall_forall. intros d Hd. apply filter_In in Hd.
    rewrite Forall_forall in Hall'. apply Hall'. apply Hd. }
  rewrite Hnone. cbn [List.length].
  pose proof (zero_ratio (0 <? List.length time_points)%nat (List.length time_points)) as Hz.
  assert (Hflag : Qltb 0.3 (if (0 <? List.length time_points)%nat
                            then Qnat 0 / Qnat (List.length time_points) else 0) = false).
  { apply Qltb_ge. rewrite Hz. vm_compute. discriminate. }
  rewrite Hflag. split; [reflexivity|]. split; [reflexivity|]. split; [|reflexivity].
  rewrite Hz. reflexivity.
Qed.

Lemma one_symbol_no_correlation_witness :
  is_correlation_trading (detect_correlation_trading alternating_lots) = false /\
  simultaneous_count (detect_correlation_trading alternating_lots) = Some O /\
  correlation_confidence (detect_correlation_trading alternating_lots) == 0 /\
  correlation_evidence (detect_correlation_trading alternating_lots) = None.
Proof.
  apply (one_symbol_no_correlation (deal_at 0 "EURUSD" 0 0.1 5)
           [deal_at 100 "EURUSD" 1 0.2 5; deal_at 200 "EURUSD" 0 0.1 5;
            deal_at 300 "EURUSD" 1 0.2 5]).
  repeat constructor.
Defined.

(** ** Hedging *)

Lemma insert_by_In {A} (key : A -> Z) (x y : A) (l : list A) :
  In y (insert_by key x l) <-> y = x \/ In y l.
Proof.
  induction l as [|z l IH]; [simpl; intuition|].
  cbn [insert_by]. destruct (key x <=? key z)%Z.
  - simpl. intuition.
  - cbn [In]. rewrite IH. intuition.
Qed.

Lemma sort_by_In {A} (key : A -> Z) (y : A) (l : list A) :
  In y (sort_by key l) <-> In y l.
Proof.
  induction l as [|x l IH]; [reflexivity|].
  unfold sort_by in *. cbn [fold_right]. rewrite insert_by_In, IH.
  simpl. intuition.
Qed.

Lemma sort_by_Forall {A} (key : A -> Z) (P : A -> Prop) (l : list A) :
  Forall P l -> Forall P (sort_by key l).
Proof.
  rewrite !Forall_forall. intros H x Hx. apply H. apply sort_by_In in Hx. exact Hx.
Qed.

Lemma hedging_pairs_same_type (ty : Z) (l : list Deal) :
  Forall (fun d => type d = ty) l -> fst (hedging_pairs l) = O.
Proof.
  induction 1 as [|d1 l H1 Hl IH]; [reflexivity|].
  destruct l as [|d2 l]; [reflexivity|].
  change (hedging_pairs (d1 :: d2 :: l)) with
    (let '(h, t) := hedging_pairs (d2 :: l) in
     let time_diff := inject_Z (time d2 - time d1) / 60 in
     ((if Qltb time_diff 10 && negb (type d1 =? type d2)%Z then S h else h), S t)).
  destruct (hedging_pairs (d2 :: l)) as [h t]. cbn [fst] in *.
  inversion Hl as [|? ? H2 _]. rewrite H1, H2, Z.eqb_refl, andb_false_r. exact IH.
Qed.

(** Instances never exceed opportunities. *)
Lemma hedging_pairs_le (l : list Deal) :
  (fst (hedging_pairs l) <= snd (hedging_pairs l))%nat.
Proof.
  induction l as [|d1 l IH]; [simpl; lia|].
  destruct l as [|d2 l]; [simpl; lia|].
  change (hedging_pairs (d1 :: d2 :: l)) with
    (let '(h, t) := hedging_pairs (d2 :: l) in
     let time_diff := inject_Z (time d2 - time d1) / 60 in
     ((if Qltb time_diff 10 && negb (type d1 =? type d2)%Z then S h else h), S t)).
  destruct (hedging_pairs (d2 :: l)) as [h t]. cbn [fst snd] in *.
  destruct (Qltb _ 10 && _); lia.
Qed.

Lemma hedging_fold_same_type (ty : Z) (sorted : list Deal) (ss : list string) :
  Forall (fun d => type d = ty) sorted ->
  forall acc, fst (fold_left (hedging_step sorted) ss acc) = fst acc.
Proof.
  intros Hall. induction ss as [|s ss IH]; intros acc; [reflexivity|].
  cbn [fold_left]. rewrite IH. unfold hedging_step.
  destruct (List.length (deals_of s sorted) <? 2)%nat; [reflexivity|].
  assert (H0 : fst (hedging_pairs (deals_of s sorted)) = O).
  { apply (hedging_pairs_same_type ty). apply Forall_forall. intros d Hd.
    unfold deals_of in Hd. apply filter_In in Hd.
    rewrite Forall_forall in Hall. apply Hall. apply Hd. }
  destruct (hedging_pairs (deals_of s sorted)) as [h t]. cbn [fst] in *.
  subst h. lia.
Qed.

(** X16. A deals table whose deals all have the same type holds no hedging
    instance and is never flagged as hedging; the confidence is 0. *)
Theorem one_direction_no_hedging (d0 : Deal) (rest : list Deal) :
  Forall (fun d => type d = type d0) rest ->
  is_hedging (detect_hedging_strategy (d0 :: rest)) = false /\
  hedging_instances (detect_hedging_strategy (d0 :: rest)) = Some O /\
  hedging_confidence (detect_hedging_strategy (d0 :: rest)) == 0 /\
  hedging_evidence (detect_hedging_strategy (d0 :: rest)) = None.
Proof.
  intros Hall.
  assert (Hsorted : Forall (fun d => type d = type d0) (sort_by time (d0 :: rest))).
  { apply sort_by_Forall. constructor; [reflexivity | exact Hall]. }
  unfold detect_hedging_strategy.
  pose proof (hedging_fold_same_type (type d0) (sort_by time (d0 :: rest))
                (symbols (sort_by time (d0 :: rest))) Hsorted (O, O)) as Hfst.
  destruct (fold_left _ _ (O, O)) as [instances total]. cbn [fst] in Hfst. subst instances.
  cbn [is_hedging hedging_instances hedging_confidence hedging_evidence].
  pose proof (zero_ratio (0 <? total)%nat total) as Hz.
  assert (Hflag : Qltb 0.3 (if (0 <? total)%nat then Qnat 0 / Qnat total else 0) = false).
  { apply Qltb_ge. rewrite Hz. vm_compute. discriminate. }
  rewrite Hflag. split; [reflexivity|]. split; [reflexivity|]. split; [|reflexivity].
  rewrite Hz. reflexivity.
Qed.

Lemma one_direction_no_hedging_witness :
  is_hedging (detect_hedging_strategy three_buys) = false /\
  hedging_instances (detect_hedging_strategy three_buys) = Some O /\
  hedging_confidence (detect_hedging_strategy three_buys) == 0 /\
  hedging_evidence (detect_hedging_strategy three_buys) = None.
Proof.
  apply (one_direction_no_hedging (deal_at 0 "EURUSD" 0 0.1 5)
           [deal_at 100 "EURUSD" 0 0.1 5; deal_at 200 "EURUSD" 0 0.1 5]).
  repeat constructor.
Defined.

(** ** Grid trading, continued *)


(** ** Time-based patterns *)

Lemma pct_all (n : nat) : (0 < n)%nat -> pct n n == 100.
Proof.
  intros Hn. unfold pct. pose proof (Qnat_pos n Hn) as Hpos.
  field. intros H. rewrite H in Hpos. apply (Qlt_irrefl 0 Hpos).
Qed.

Lemma value_counts_one_value (x : Z) (l : list Z) :
  Forall (fun y => x = y) l ->
  value_counts Z.eqb (x :: l) = [(x, S (List.length l))].
Proof.
  intros Hall. unfold value_counts.
  rewrite (unique_by_singleton_eq Z.eqb eq eq_equivalence Z_eqb_eq_iff _ _ Hall).
  cbn [map fold_right insert_count].
  rewrite (count_by_all Z.eqb eq Z_eqb_eq_iff x (x :: l)); [reflexivity|].
  constructor; [reflexivity | exact Hall].
Qed.

(** X18. When every deal falls in the same hour of the day the pattern is
    "Time-Scheduled Trading" with confidence 0.85 and that hour as
    [top_trading_hour]. *)
Theorem one_hour_is_time_scheduled (d0 : Deal) (rest : list Deal) :
  Forall (fun d => hour_of (time d0) = hour_of (time d)) rest ->
  exists p,
    detect_time_based_patterns (d0 :: rest) = Some p /\
    pattern_name p = "Time-Scheduled Trading" /\
    confidence p = 0.85 /\
    In ("top_trading_hour", VInt (hour_of (time d0))) (metrics p).
Proof.
  intros Hall.
  assert (Hvc : value_counts Z.eqb (map (fun d => hour_of (time d)) (d0 :: rest))
                = [(hour_of (time d0), List.length (d0 :: rest))]).
  { cbn [map]. rewrite value_counts_one_value.
    - rewrite length_map. reflexivity.
    - rewrite Forall_map. exact Hall. }
  unfold detect_time_based_patterns. cbv zeta. rewrite Hvc. cbn [hd fst snd].
  assert (H50 : Qltb 50 (pct (List.length (d0 :: rest)) (List.length (d0 :: rest))) = true).
  { apply Qltb_lt. rewrite pct_all by (simpl; lia). reflexivity. }
  rewrite H50.
  eexists. split; [reflexivity|].
  cbn [pattern_name confidence metrics]. split; [reflexivity|]. split.
  - match goal with
    | |- (if ?b then _ else _) = _ => destruct b
    end; reflexivity.
  - match goal with
    | |- In _ (if ?b then _ else _) => destruct b
    end; simpl; tauto.
Qed.

Lemma one_hour_is_time_scheduled_witness :
  exists p,
    detect_time_based_patterns alternating_lots = Some p /\
    pattern_name p = "Time-Scheduled Trading" /\
    confidence p = 0.85 /\
    In ("top_trading_hour", VInt (hour_of 0)) (metrics p).
Proof.
  apply (one_hour_is_time_scheduled (deal_at 0 "EURUSD" 0 0.1 5)
           [deal_at 100 "EURUSD" 1 0.2 5; deal_at 200 "EURUSD" 0 0.1 5;
            deal_at 300 "EURUSD" 1 0.2 5]).
  repeat constructor.
Defined.

(** ** Entry precision *)

Lemma insert_count_In {A} (p q : A * nat) (l : list (A * nat)) :
  In q (insert_count p l) <-> q = p \/ In q l.
Proof.
  induction l as [|z l IH]; [simpl; intuition|].
  cbn [insert_count]. destruct (snd z <=? snd p)%nat.
  - simpl. intuition.
  - cbn [In]. rewrite IH. intuition.
Qed.

(** Every entry of [value_counts] is a value of the sequence with its
    number of occurrences. *)
Lemma value_counts_In {A} (eqb : A -> A -> bool) (l : list A) (q : A * nat) :
  In q (value_counts eqb l) ->
  In (fst q) l /\ snd q = count_by eqb (fst q) l.
Proof.
  unfold value_counts.
  assert (Hgen : forall u, (forall x, In x u -> In x l) ->
            In q (fold_right insert_count [] (map (fun x => (x, count_by eqb x l)) u)) ->
            In (fst q) l /\ snd q = count_by eqb (fst q) l).
  { induction u as [|x u IH]; intros Hsub Hq; [destruct Hq|].
    cbn [map fold_right] in Hq. apply insert_count_In in Hq.
    destruct Hq as [-> | Hq].
    - split; [apply Hsub; left; reflexivity | reflexivity].
    - apply IH; [|exact Hq]. intros y Hy. apply Hsub. right. exact Hy. }
  apply Hgen. intros x Hx.
  clear Hgen. revert x Hx. induction l as [|y l IH]; intros x Hx; [exact Hx|].
  cbn [unique_by] in Hx. destruct Hx as [-> | Hx]; [left; reflexivity|].
  apply filter_In in Hx. right. apply IH. apply Hx.
Qed.

Lemma count_by_positive (x : nat) (l : list nat) :
  In x l -> (0 < count_by Nat.eqb x l)%nat.
Proof.
  unfold count_by. induction l as [|y l IH]; intros Hin; [destruct Hin|].
  cbn [filter]. destruct Hin as [-> | Hin].
  - rewrite Nat.eqb_refl. simpl. lia.
  - destruct (x =? y)%nat; [simpl; lia | apply IH, Hin].
Qed.

(** X19. On a non-empty deals table the entry-precision analysis always
    returns a result; the most common number of decimals is at most 10, the
    precision consistency is a positive share of at most 1 and the
    round-number ratio lies between 0 and 1. *)
Theorem entry_precision_ranges (deals_df : list Deal) :
  deals_df <> [] ->
  exists r,
    analyze_entry_precision deals_df = Some r /\
    (most_common_decimal_places r <= 10)%nat /\
    0 < precision_consistency r <= 1 /\
    0 <= round_number_ratio r <= 1.
Proof.
  intros Hne. destruct deals_df as [|d0 rest]; [congruence|].
  unfold analyze_entry_precision.
  set (decimal_places := map decimals_of (map price (d0 :: rest))).
  pose proof (value_counts_length Nat.eqb decimal_places) as Hlen.
  destruct (value_counts Nat.eqb decimal_places) as [|[m count] vc] eqn:Evc.
  { exfalso. subst decimal_places. simpl in Hlen. lia. }
  assert (Hin : In (m, count) (value_counts Nat.eqb decimal_places))
    by (rewrite Evc; left; reflexivity).
  apply value_counts_In in Hin. cbn [fst snd] in Hin. destruct Hin as [Hm Hcount].
  eexists. split; [reflexivity|].
  cbn [most_common_decimal_places precision_consistency round_number_ratio].
  split; [|split].
  - subst decimal_places. apply in_map_iff in Hm. destruct Hm as (p & <- & _).
    unfold decimals_of. lia.
  - assert (Hpos : (0 < count)%nat) by (rewrite Hcount; apply count_by_positive, Hm).
    assert (Hle : (count <= List.length decimal_places)%nat)
      by (rewrite Hcount; apply filter_length_le).
    change (Qlen decimal_places) with (Qnat (List.length decimal_places)).
    split; [|apply ratio_bounds, Hle].
    apply Qlt_shift_div_l; [apply Qnat_pos; lia|].
    rewrite Qmult_0_l. apply Qnat_pos, Hpos.
  - change (Qlen (map price (d0 :: rest)))
      with (Qnat (List.length (map price (d0 :: rest)))).
    apply ratio_bounds, filter_length_le.
Qed.

Lemma entry_precision_ranges_witness :
  exists r,
    analyze_entry_precision alternating_lots = Some r /\
    (most_common_decimal_places r <= 10)%nat /\
    0 < precision_consistency r <= 1 /\
    0 <= round_number_ratio r <= 1.
Proof.
  apply (entry_precision_ranges alternating_lots). discriminate.
Defined.

(** ** Maximum drawdown *)

Lemma fold_Qmax_le (l : list Q) (d b : Q) :
  d <= b -> (forall x, In x l -> x <= b) -> fold_right Qmax d l <= b.
Proof.
  intros Hd. induction l as [|y l IH]; intros H; [exact Hd|].
  cbn [fold_right]. apply Q.max_lub.
  - apply H. left. reflexivity.
  - apply IH. intros x Hx. apply H. right. exact Hx.
Qed.

Lemma Qmaximum_nonneg (l : list Q) : Forall (fun x => 0 <= x) l -> 0 <= Qmaximum l.
Proof.
  intros H. destruct l as [|x r]; [apply Qle_refl|].
  apply Qle_trans with x.
  - inversion H; assumption.
  - apply Qmaximum_ge. left. reflexivity.
Qed.

Lemma Qmaximum_nonpos (l : list Q) : Forall (fun x => x <= 0) l -> Qmaximum l <= 0.
Proof.
  intros H. unfold Qmaximum. apply fold_Qmax_le.
  - destruct l as [|x r]; [apply Qle_refl | inversion H; assumption].
  - apply Forall_forall. exact H.
Qed.

(** The running maximum is never below the series. *)
Lemma drawdown_from_nonneg (l : list Q) :
  forall m, Forall (fun x => 0 <= x) (sub_columns (cummax_from m l) l).
Proof.
  induction l as [|x l IH]; intros m; [constructor|].
  cbn [cummax_from sub_columns]. constructor; [|apply IH].
  pose proof (Q.le_max_r m x). lra.
Qed.

Lemma drawdown_nonneg (l : list Q) :
  Forall (fun x => 0 <= x) (sub_columns (cummax l) l).
Proof.
  destruct l as [|x l]; [constructor|].
  cbn [cummax sub_columns]. constructor; [lra | apply drawdown_from_nonneg].
Qed.

(** X20. The maximum drawdown and its percentage are never negative. *)
Theorem max_drawdown_nonnegative (deals_df : list Deal) :
  0 <= max_drawdown (calculate_maximum_drawdown deals_df) /\
  0 <= max_drawdown_pct (calculate_maximum_drawdown deals_df).
Proof.
  unfold calculate_maximum_drawdown.
  destruct deals_df as [|d0 rest]; [split; apply Qle_refl|].
  cbn [max_drawdown max_drawdown_pct].
  set (cum := cumsum (map profit (sort_by time (d0 :: rest)))).
  assert (Hdd : 0 <= Qmaximum (sub_columns (cummax cum) cum))
    by apply Qmaximum_nonneg, drawdown_nonneg.
  split; [exact Hdd|].
  destruct (Qltb 0 (Qmaximum (cummax cum))) eqn:E; [|apply Qle_refl].
  apply Qltb_lt in E.
  apply Qmult_le_0_compat; [|vm_compute; discriminate].
  apply Qle_shift_div_l; [exact E|]. rewrite Qmult_0_l. exact Hdd.
Qed.

(** While the profits stay non-negative the cumulative profit is its own
    running maximum. *)
Lemma drawdown_from_nonpos (l : list Q) :
  forall acc m, m <= acc -> Forall (fun x => 0 <= x) l ->
    Forall (fun x => x <= 0)
           (sub_columns (cummax_from m (cumsum_from acc l)) (cumsum_from acc l)).
Proof.
  induction l as [|x l IH]; intros acc m Hm Hall; [constructor|].
  inversion Hall as [|? ? Hx Hl]; subst.
  cbn [cumsum_from cummax_from sub_columns].
  assert (Hmax : Qmax m (acc + x) <= acc + x)
    by (apply Q.max_lub; lra).
  constructor; [lra|]. apply IH; [exact Hmax | exact Hl].
Qed.

(** X21. A history without losing deals has no drawdown: if no deal has a
    negative profit, the maximum drawdown and its percentage are 0. *)
Theorem no_loss_no_drawdown (deals_df : list Deal) :
  Forall (fun d => 0 <= profit d) deals_df ->
  max_drawdown (calculate_maximum_drawdown deals_df) == 0 /\
  max_drawdown_pct (calculate_maximum_drawdown deals_df) == 0.
Proof.
  intros Hall. unfold calculate_maximum_drawdown.
  destruct deals_df as [|d0 rest]; [split; reflexivity|].
  cbn [max_drawdown max_drawdown_pct].
  assert (Hsorted : Forall (fun x => 0 <= x) (map profit (sort_by time (d0 :: rest)))).
  { rewrite Forall_map. apply sort_by_Forall. exact Hall. }
  set (profits := map profit (sort_by time (d0 :: rest))) in *.
  assert (Hle : Qmaximum (sub_columns (cummax (cumsum profits)) (cumsum profits)) <= 0).
  { apply Qmaximum_nonpos.
    destruct profits as [|x l]; [constructor|].
    inversion Hsorted as [|? ? Hx Hl]; subst.
    cbn [cumsum cummax sub_columns]. constructor; [lra|].
    apply drawdown_from_nonpos; [apply Qle_refl | exact Hl]. }
  pose proof (Qmaximum_nonneg _ (drawdown_nonneg (cumsum profits))) as Hge.
  assert (Hz : Qmaximum (sub_columns (cummax (cumsum profits)) (cumsum profits)) == 0)
    by (apply Qle_antisym; assumption).
  split; [exact Hz|].
  destruct (Qltb 0 (Qmaximum (cummax (cumsum profits)))); [|reflexivity].
  rewrite Hz. unfold Qdiv. rewrite !Qmult_0_l. reflexivity.
Qed.

Lemma no_loss_no_drawdown_witness :
  max_drawdown (calculate_maximum_drawdown alternating_lots) == 0 /\
  max_drawdown_pct (calculate_maximum_drawdown alternating_lots) == 0.
Proof.
  apply (no_loss_no_drawdown alternating_lots).
  repeat constructor; vm_compute; discriminate.
Defined.

(** *** The drawdown period *)

Lemma insert_by_sorted {A} (key : A -> Z) (x : A) (l : list A) :
  StronglySorted (fun a b => (key a <= key b)%Z) l ->
  StronglySorted (fun a b => (key a <= key b)%Z) (insert_by key x l).
Proof.
  induction 1 as [|y l Hs IH Hy]; [repeat constructor|].
  cbn [insert_by]. destruct (Z.leb_spec (key x) (key y)) as [H | H].
  - constructor; [constructor; assumption|].
    constructor; [lia|].
    apply Forall_forall. intros z Hz. rewrite Forall_forall in Hy.
    specialize (Hy z Hz). lia.
  - constructor; [exact IH|].
    apply Forall_forall. intros z Hz. apply insert_by_In in Hz.
    destruct Hz as [-> | Hz]; [lia|].
    rewrite Forall_forall in Hy. apply Hy, Hz.
Qed.

(** [sort_by] returns its input in ascending key order. *)
Lemma sort_by_sorted {A} (key : A -> Z) (l : list A) :
  StronglySorted (fun a b => (key a <= key b)%Z) (sort_by key l).
Proof.
  induction l as [|x l IH]; [constructor|].
  unfold sort_by in *. cbn [fold_right]. apply insert_by_sorted, IH.
Qed.

Lemma sorted_nth {A} (key : A -> Z) (l : list A) (d : A) :
  StronglySorted (fun a b => (key a <= key b)%Z) l ->
  forall i j, (i <= j < List.length l)%nat ->
              (key (nth i l d) <= key (nth j l d))%Z.
Proof.
  induction 1 as [|a l Hs IH Ha]; intros i j Hij; [simpl in Hij; lia|].
  destruct i as [|i]; destruct j as [|j]; cbn [nth]; try lia.
  - rewrite Forall_forall in Ha. apply Ha. apply nth_In. simpl in Hij. lia.
  - apply IH. simpl in Hij. lia.
Qed.

Lemma fold_Qmax_attained (l : list Q) (d : Q) :
  exists x, In x (d :: l) /\ fold_right Qmax d l <= x.
Proof.
  induction l as [|y l IH].
  - exists d. split; [left; reflexivity | apply Qle_refl].
  - destruct IH as (x & Hx & Hle). cbn [fold_right].
    destruct (Qlt_le_dec (fold_right Qmax d l) y) as [H | H].
    + exists y. split; [right; left; reflexivity|].
      apply Q.max_lub; [apply Qle_refl | apply Qlt_le_weak, H].
    + exists x. split.
      * destruct Hx as [-> | Hx]; [left; reflexivity | right; right; exact Hx].
      * apply Q.max_lub; [apply Qle_trans with (fold_right Qmax d l)|]; assumption.
Qed.

Lemma first_index_lt {A} (f : A -> bool) (l : list A) :
  (exists x, In x l /\ f x = true) -> (first_index f l < List.length l)%nat.
Proof.
  induction l as [|y l IH]; intros (x & Hx & Hf); [destruct Hx|].
  cbn [first_index List.length]. destruct (f y) eqn:E; [lia|].
  destruct Hx as [-> | Hx]; [congruence|].
  assert (first_index f l < List.length l)%nat by (apply IH; eauto). lia.
Qed.

(** The maximum of a non-empty series is found inside it. *)
Lemma idxmax_lt (l : list Q) : l <> [] -> (idxmax l < List.length l)%nat.
Proof.
  intros Hne. destruct l as [|y l]; [congruence|].
  unfold idxmax. apply first_index_lt.
  destruct (fold_Qmax_attained (y :: l) y) as (x & Hx & Hle).
  assert (Hin : In x (y :: l)) by (destruct Hx as [-> | Hx]; [left; reflexivity | exact Hx]).
  exists x. split; [exact Hin|].
  apply Qeq_bool_iff. apply Qle_antisym; [apply Qmaximum_ge, Hin | exact Hle].
Qed.

Lemma cumsum_from_length (l : list Q) : forall acc,
  List.length (cumsum_from acc l) = List.length l.
Proof.
  induction l as [|x l IH]; intros acc; [reflexivity|].
  cbn [cumsum_from List.length]. rewrite IH. reflexivity.
Qed.

Lemma cumsum_length (l : list Q) : List.length (cumsum l) = List.length l.
Proof.
  destruct l as [|x l]; [reflexivity|].
  cbn [cumsum List.length]. rewrite cumsum_from_length. reflexivity.
Qed.

Lemma cummax_from_length (l : list Q) : forall m,
  List.length (cummax_from m l) = List.length l.
Proof.
  induction l as [|x l IH]; intros m; [reflexivity|].
  cbn [cummax_from List.length]. rewrite IH. reflexivity.
Qed.

Lemma cummax_length (l : list Q) : List.length (cummax l) = List.length l.
Proof.
  destruct l as [|x l]; [reflexivity|].
  cbn [cummax List.length]. rewrite cummax_from_length. reflexivity.
Qed.

Lemma sub_columns_length (a b : list Q) :
  List.length a = List.length b -> List.length (sub_columns a b) = List.length b.
Proof.
  revert b. induction a as [|x a IH]; intros [|y b] H; try discriminate; [reflexivity|].
  cbn [sub_columns List.length]. rewrite IH; [reflexivity|]. simpl in H. lia.
Qed.

(** X22. On a non-empty deals table the reported drawdown period runs
    forward in time: start and end are times of deals of the table, the
    start is not after the end and the duration in days is not negative. *)
Theorem drawdown_period_ordered (deals_df : list Deal) :
  deals_df <> [] ->
  exists s e days,
    drawdown_start (calculate_maximum_drawdown deals_df) = Some s /\
    drawdown_end (calculate_maximum_drawdown deals_df) = Some e /\
    drawdown_duration_days (calculate_maximum_drawdown deals_df) = Some days /\
    In s (map time deals_df) /\ In e (map time deals_df) /\
    (s <= e)%Z /\ (0 <= days)%Z.
Proof.
  intros Hne. destruct deals_df as [|d0 rest]; [congruence|].
  unfold calculate_maximum_drawdown.
  cbn [drawdown_start drawdown_end drawdown_duration_days].
  set (sorted := sort_by time (d0 :: rest)).
  set (cum := cumsum (map profit sorted)).
  set (running := cummax cum).
  set (dd := sub_columns running cum).
  assert (Hlen : List.length sorted = S (List.length rest))
    by (subst sorted; rewrite sort_by_length; reflexivity).
  assert (Hcum : List.length cum = List.length sorted)
    by (subst cum; rewrite cumsum_length, length_map; reflexivity).
  assert (Hrun : List.length running = List.length sorted)
    by (subst running; rewrite cummax_length; exact Hcum).
  assert (Hdd : List.length dd = List.length sorted)
    by (subst dd; rewrite sub_columns_length; congruence).
  assert (Hend : (idxmax dd < List.length sorted)%nat).
  { rewrite <- Hdd. apply idxmax_lt. intros E. rewrite E in Hdd. simpl in Hdd. lia. }
  assert (Hstart : (idxmax (firstn (S (idxmax dd)) running) <= idxmax dd)%nat).
  { assert (Hf : List.length (firstn (S (idxmax dd)) running) = S (idxmax dd))
      by (rewrite length_firstn; lia).
    assert (idxmax (firstn (S (idxmax dd)) running)
            < List.length (firstn (S (idxmax dd)) running))%nat.
    { apply idxmax_lt. intros E. rewrite E in Hf. discriminate. }
    lia. }
  assert (Horder : (time (nth (idxmax (firstn (S (idxmax dd)) running)) sorted d0)
                    <= time (nth (idxmax dd) sorted d0))%Z).
  { apply sorted_nth; [apply sort_by_sorted | lia]. }
  do 3 eexists. split; [reflexivity|]. split; [reflexivity|]. split; [reflexivity|].
  split; [|split; [|split]].
  - apply in_map. apply (sort_by_In time). apply nth_In. fold sorted. lia.
  - apply in_map. apply (sort_by_In time). apply nth_In. fold sorted. lia.
  - exact Horder.
  - apply Z.div_pos; lia.
Qed.

Lemma drawdown_period_ordered_witness :
  exists s e days,
    drawdown_start (calculate_maximum_drawdown drawdown_sample) = Some s /\
    drawdown_end (calculate_maximum_drawdown drawdown_sample) = Some e /\
    drawdown_duration_days (calculate_maximum_drawdown drawdown_sample) = Some days /\
    In s (map time drawdown_sample) /\ In e (map time drawdown_sample) /\
    (s <= e)%Z /\ (0 <= days)%Z.
Proof.
  apply (drawdown_period_ordered drawdown_sample). discriminate.
Defined.

(** ** Sharpe ratio *)

(** X23. The Sharpe ratio is 0 when all deals fall on one calendar date
    (and so whenever there is a single deal), whatever the zero test on the
    deviation would answer. *)
Theorem sharpe_zero_on_single_day (std_is_zero : list Q -> bool)
    (d0 : Deal) (rest : list Deal) (risk_free_rate : Q) :
  Forall (fun d => date_of (time d0) = date_of (time d)) rest ->
  calculate_sharpe_ratio std_is_zero (d0 :: rest) risk_free_rate = SharpeZero.
Proof.
  intros Hall. unfold calculate_sharpe_ratio.
  destruct (List.length (d0 :: rest) <? 2)%nat; [reflexivity|].
  assert (Hlen : List.length (daily_profits (d0 :: rest)) = 1%nat).
  { unfold daily_profits. rewrite length_map, sort_by_length. cbn [map].
    rewrite (unique_by_singleton_eq Z.eqb eq eq_equivalence Z_eqb_eq_iff);
      [reflexivity|].
    rewrite Forall_map. exact Hall. }
  rewrite Hlen. reflexivity.
Qed.

Lemma sharpe_zero_on_single_day_witness :
  calculate_sharpe_ratio exact_std_is_zero alternating_lots 0.02 = SharpeZero.
Proof.
  apply (sharpe_zero_on_single_day exact_std_is_zero (deal_at 0 "EURUSD" 0 0.1 5)
           [deal_at 100 "EURUSD" 1 0.2 5; deal_at 200 "EURUSD" 0 0.1 5;
            deal_at 300 "EURUSD" 1 0.2 5] 0.02).
  repeat constructor.
Defined.

(** ** Trade duration *)

Lemma fold_Qmin_ge (l : list Q) (d b : Q) :
  b <= d -> (forall x, In x l -> b <= x) -> b <= fold_right Qmin d l.
Proof.
  intros Hd. induction l as [|y l IH]; intros H; [exact Hd|].
  cbn [fold_right]. apply Q.min_glb.
  - apply H. left. reflexivity.
  - apply IH. intros x Hx. apply H. right. exact Hx.
Qed.

Lemma position_durations_nonneg (sorted : list Deal) (x : Q) :
  In x (position_durations sorted) -> 0 <= x.
Proof.
  unfold position_durations. intros Hx. apply in_flat_map in Hx.
  destruct Hx as (pos_id & _ & Hx).
  destruct (2 <=? List.length _)%nat; [|destruct Hx].
  destruct Hx as [<- | []].
  apply Qle_shift_div_l; [reflexivity|]. rewrite Qmult_0_l.
  pose proof (Zminimum_le_Zmaximum
                (map time (filter (fun d => (position_id d =? pos_id)%Z) sorted))) as H.
  unfold Qle. simpl. lia.
Qed.

Lemma insertQ_In (x y : Q) (l : list Q) :
  In y (insertQ x l) <-> y = x \/ In y l.
Proof.
  induction l as [|z l IH]; [simpl; intuition|].
  cbn [insertQ]. destruct (Qltb x z).
  - simpl. intuition.
  - cbn [In]. rewrite IH. intuition.
Qed.

Lemma sortQ_In (y : Q) (l : list Q) : In y (sortQ l) <-> In y l.
Proof.
  induction l as [|x l IH]; [reflexivity|].
  unfold sortQ in *. cbn [fold_right]. rewrite insertQ_In, IH.
  simpl. intuition.
Qed.

Lemma insertQ_length (x : Q) (l : list Q) :
  List.length (insertQ x l) = S (List.length l).
Proof.
  induction l as [|y l IH]; [reflexivity|].
  cbn [insertQ]. destruct (Qltb x y); cbn [List.length]; [reflexivity|].
  rewrite IH. reflexivity.
Qed.

Lemma sortQ_length (l : list Q) : List.length (sortQ l) = List.length l.
Proof.
  induction l as [|x l IH]; [reflexivity|].
  unfold sortQ in *. cbn [fold_right]. rewrite insertQ_length, IH. reflexivity.
Qed.

(** The median is a value of the sequence or the midpoint of two of them,
    so it lies between the minimum and the maximum. *)
Lemma median_between (l : list Q) :
  l <> [] -> Qminimum l <= median l <= Qmaximum l.
Proof.
  intros Hne. unfold median.
  assert (Hn : (0 < List.length (sortQ l))%nat).
  { rewrite sortQ_length. destruct l; [congruence | simpl; lia]. }
  assert (Hb : forall i, (i < List.length (sortQ l))%nat ->
                         Qminimum l <= nth i (sortQ l) 0 <= Qmaximum l).
  { intros i Hi.
    assert (Hin : In (nth i (sortQ l) 0) l) by (apply sortQ_In, nth_In, Hi).
    split; [apply Qminimum_le, Hin | apply Qmaximum_ge, Hin]. }
  set (n := List.length (sortQ l)) in *.
  assert (Hhalf : (n / 2 < n)%nat) by (apply Nat.div_lt; lia).
  destruct (Nat.even n).
  - destruct (Hb (n / 2 - 1)%nat ltac:(lia)) as [Ha1 Ha2].
    destruct (Hb (n / 2)%nat Hhalf) as [Hb1 Hb2].
    split.
    + apply Qle_shift_div_l; [reflexivity | lra].
    + apply Qle_shift_div_r; [reflexivity | lra].
  - apply Hb, Hhalf.
Qed.

(** X25. When duration statistics are returned they are consistent: no
    duration is negative, so the shortest and the average duration are not
    negative, and the median lies between the shortest and the longest. *)
Theorem trade_duration_stats_ordered (has_position_id : bool) (deals_df : list Deal)
    (avg med mn mx : Q) (sd : Value) :
  analyze_trade_duration has_position_id deals_df = DurationStats avg med mn mx sd ->
  0 <= mn /\ mn <= med /\ med <= mx /\ 0 <= avg.
Proof.
  unfold analyze_trade_duration. intros H.
  destruct deals_df as [|d0 rest]; [discriminate|].
  destruct has_position_id; [|discriminate].
  pose proof (position_durations_nonneg (sort_by time (d0 :: rest))) as Hnn.
  destruct (position_durations (sort_by time (d0 :: rest))) as [|x l] eqn:E;
    [discriminate|].
  injection H as <- <- <- <- _.
  assert (Hne : x :: l <> []) by discriminate.
  destruct (median_between (x :: l) Hne) as [Hlo Hhi].
  split; [|split; [exact Hlo|split; [exact Hhi|]]].
  - unfold Qminimum. apply fold_Qmin_ge.
    + apply Hnn. left. reflexivity.
    + exact Hnn.
  - unfold mean. apply Qle_shift_div_l; [apply Qlen_pos, Hne|].
    rewrite Qmult_0_l. apply Qsum_nonneg, Forall_forall. exact Hnn.
Qed.

Lemma trade_duration_stats_ordered_witness :
  exists avg med mn mx sd,
    analyze_trade_duration true two_positions = DurationStats avg med mn mx sd /\
    0 <= mn /\ mn <= med /\ med <= mx /\ 0 <= avg.
Proof.
  do 5 eexists. split; [reflexivity|].
  apply (trade_duration_stats_ordered true two_positions _ _ _ _ _ eq_refl).
Defined.

Lemma filter_insert_by_length {A} (key : A -> Z) (f : A -> bool) (x : A) (l : list A) :
  List.length (filter f (insert_by key x l)) = List.length (filter f (x :: l)).
Proof.
  induction l as [|y l IH]; [reflexivity|].
  cbn [insert_by]. destruct (key x <=? key y)%Z; [reflexivity|].
  cbn [filter] in *. destruct (f y); destruct (f x); cbn [List.length] in *; lia.
Qed.

Lemma filter_sort_by_length {A} (key : A -> Z) (f : A -> bool) (l : list A) :
  List.length (filter f (sort_by key l)) = List.length (filter f l).
Proof.
  induction l as [|x l IH]; [reflexivity|].
  unfold sort_by in *. cbn [fold_right]. rewrite filter_insert_by_length.
  cbn [filter]. destruct (f x); cbn [List.length]; rewrite IH; reflexivity.
Qed.

(** X26. On a non-empty deals table the analysis reports that no duration
    can be computed, rather than a number, when the table has no
    [position_id] column or when no position has two deals. *)
Theorem trade_duration_unavailable (has_position_id : bool) (deals_df : list Deal) :
  deals_df <> [] ->
  has_position_id = false \/
  (forall pos_id,
     List.length (filter (fun d => (position_id d =? pos_id)%Z) deals_df) <= 1)%nat ->
  analyze_trade_duration has_position_id deals_df = DurationNote.
Proof.
  intros Hne Hcase. destruct deals_df as [|d0 rest]; [congruence|].
  unfold analyze_trade_duration.
  destruct has_position_id; [|reflexivity].
  destruct Hcase as [Hf | Hone]; [discriminate|].
  assert (Hnil : position_durations (sort_by time (d0 :: rest)) = []).
  { unfold position_durations.
    induction (unique_by Z.eqb (map position_id (sort_by time (d0 :: rest))))
      as [|pos_id ids IH]; [reflexivity|].
    cbn [flat_map]. rewrite IH, filter_sort_by_length.
    specialize (Hone pos_id).
    destruct (Nat.leb_spec 2
      (List.length (filter (fun d => (position_id d =? pos_id)%Z) (d0 :: rest))));
      [lia | reflexivity]. }
  rewrite Hnil. reflexivity.
Qed.

Lemma trade_duration_unavailable_witness :
  analyze_trade_duration true separate_positions = DurationNote.
Proof.
  apply (trade_duration_unavailable true separate_positions).
  - discriminate.
  - right. intros pos_id. unfold separate_positions. cbn [filter position_id].
    destruct (Z.eqb_spec 1 pos_id); destruct (Z.eqb_spec 2 pos_id);
      destruct (Z.eqb_spec 3 pos_id); simpl; lia.
Defined.
